(** * A shallow embedding of gitlab-pipe-viewer's main.go

    The program is a terminal browser over the GitLab REST API built with
    tview.  Every handler is a Go closure that calls the GitLab client and
    then replaces the application root with [app.SetRoot].  We model:
    - the remote instance as a [Server] value answering the client calls
      (a retry returns the server state after the mutation);
    - the process as a state [St] holding the global configuration, the
      current tview root, the server, the trace of client requests and
      the lines printed on stdout;
    - handlers as computations in a small state monad [M] over [St]. *)

From Stdlib Require Import String Ascii List ZArith Bool Lia.
Import ListNotations.
Set Warnings "-register-all".
Open Scope list_scope.
Open Scope string_scope.

(** ** Strings *)

(** Byte [n] as a character (Go strings are byte strings). *)
Definition byte (n : nat) : ascii := ascii_of_nat n.

(** The Nerd Font icons in front of the instance and group labels
    (UTF-8 bytes of the literals of [buildGroups]). *)
Definition instance_icon : string :=
  String (byte 243) (String (byte 176) (String (byte 174) (String (byte 160) EmptyString))).
Definition group_icon : string :=
  String (byte 238) (String (byte 151) (String (byte 187) EmptyString)).

(** [strings.HasPrefix]. *)
Fixpoint HasPrefix (s prefix : string) : bool :=
  match prefix, s with
  | EmptyString, _ => true
  | String c p, String d s' => Ascii.eqb c d && HasPrefix s' p
  | String _ _, EmptyString => false
  end.

(** [strings.Contains]: some suffix of [s] starts with [substr]. *)
Fixpoint Contains (s substr : string) : bool :=
  HasPrefix s substr ||
  match s with
  | EmptyString => false
  | String _ s' => Contains s' substr
  end.

(** *** [strings.ToLower] (Go 1.21 and later)

    Go strings are byte strings holding UTF-8.  [strings.ToLower] lowers
    an ASCII-only string bytewise and otherwise maps [unicode.ToLower]
    over the runes of the string with [strings.Map]. *)

(** The ASCII case of [unicode.ToLower], on one byte. *)
Definition lower_ascii (c : ascii) : ascii :=
  let n := nat_of_ascii c in
  if Nat.leb 65 n && Nat.leb n 90 then ascii_of_nat (n + 32) else c.

(** The byte loop of the ASCII path of [strings.ToLower]: the bytes
    'A'..'Z' are lowered, the others copied. *)
Fixpoint lower_ascii_bytes (s : string) : string :=
  match s with
  | EmptyString => EmptyString
  | String c s' => String (lower_ascii c) (lower_ascii_bytes s')
  end.

(** The first loop of [strings.ToLower]: [(isASCII, hasUpper)]; it stops
    at the first byte [>= utf8.RuneSelf]. *)
Fixpoint ascii_scan (s : string) : bool * bool :=
  match s with
  | EmptyString => (true, false)
  | String c s' =>
      let n := nat_of_ascii c in
      if Nat.leb 128 n then (false, false)
      else let (isASCII, hasUpper) := ascii_scan s' in
           (isASCII, (Nat.leb 65 n && Nat.leb n 90) || hasUpper)
  end.

(** **** Package [unicode/utf8] *)

Definition RuneError : Z := 0xFFFD.
Definition MaxRune : Z := 0x10FFFF.

Definition byte_in (c : ascii) (lo hi : nat) : bool :=
  Nat.leb lo (nat_of_ascii c) && Nat.leb (nat_of_ascii c) hi.

(** [c & maskx]: the payload of a continuation byte. *)
Definition maskx (c : ascii) : Z := Z.land (Z.of_nat (nat_of_ascii c)) 0x3F.

(** The [first] table of utf8.go for a byte [>= 0x80]: the length of
    the sequence it starts and the accept range of the second byte, or
    [None] (the [xx] entries: 0x80..0xC1 and 0xF5..0xFF). *)
Definition first (b0 : nat) : option (nat * (nat * nat)) :=
  if Nat.ltb b0 0xC2 then None
  else if Nat.leb b0 0xDF then Some (2, (0x80, 0xBF))
  else if Nat.eqb b0 0xE0 then Some (3, (0xA0, 0xBF))
  else if Nat.eqb b0 0xED then Some (3, (0x80, 0x9F))
  else if Nat.leb b0 0xEF then Some (3, (0x80, 0xBF))
  else if Nat.eqb b0 0xF0 then Some (4, (0x90, 0xBF))
  else if Nat.leb b0 0xF3 then Some (4, (0x80, 0xBF))
  else if Nat.eqb b0 0xF4 then Some (4, (0x80, 0x8F))
  else None.

(** [utf8.DecodeRuneInString s], with the rest of [s] after the [size]
    bytes read; every invalid or truncated sequence is [(RuneError, 1)]. *)
Definition DecodeRuneInString (s : string) : Z * nat * string :=
  match s with
  | EmptyString => (RuneError, 0, EmptyString)
  | String c0 s1 =>
      let b0 := nat_of_ascii c0 in
      let err := (RuneError, 1, s1) in
      if Nat.ltb b0 0x80 then (Z.of_nat b0, 1, s1) else
      match first b0 with
      | None => err
      | Some (sz, (lo, hi)) =>
          match s1 with
          | EmptyString => err
          | String c1 s2 =>
              if negb (byte_in c1 lo hi) then err
              else if Nat.leb sz 2 then
                (Z.lor (Z.shiftl (Z.land (Z.of_nat b0) 0x1F) 6) (maskx c1), 2, s2)
              else
                match s2 with
                | EmptyString => err
                | String c2 s3 =>
                    if negb (byte_in c2 0x80 0xBF) then err
                    else if Nat.leb sz 3 then
                      (Z.lor (Z.lor (Z.shiftl (Z.land (Z.of_nat b0) 0x0F) 12) (Z.shiftl (maskx c1) 6))
                             (maskx c2), 3, s3)
                    else
                      match s3 with
                      | EmptyString => err
                      | String c3 s4 =>
                          if negb (byte_in c3 0x80 0xBF) then err
                          else (Z.lor (Z.lor (Z.lor (Z.shiftl (Z.land (Z.of_nat b0) 0x07) 18)
                                                    (Z.shiftl (maskx c1) 12))
                                             (Z.shiftl (maskx c2) 6)) (maskx c3), 4, s4)
                      end
                end
          end
      end
  end.

Definition byte_of_Z (z : Z) : ascii := ascii_of_nat (Z.to_nat z).

(** [utf8.EncodeRune] (used by [Builder.WriteRune]); [i] is [uint32(r)]. *)
Definition EncodeRune (r0 : Z) : string :=
  let i := if (r0 <? 0)%Z then (r0 + 2 ^ 32)%Z else r0 in
  if (i <=? 0x7F)%Z then String (byte_of_Z i) EmptyString
  else if (i <=? 0x7FF)%Z then
    String (byte_of_Z (Z.lor 0xC0 (Z.shiftr i 6)))
      (String (byte_of_Z (Z.lor 0x80 (Z.land i 0x3F))) EmptyString)
  else
    let r := if (MaxRune <? i)%Z || ((0xD800 <=? i)%Z && (i <=? 0xDFFF)%Z) then RuneError else i in
    if (r <=? 0xFFFF)%Z then
      String (byte_of_Z (Z.lor 0xE0 (Z.shiftr r 12)))
        (String (byte_of_Z (Z.lor 0x80 (Z.land (Z.shiftr r 6) 0x3F)))
          (String (byte_of_Z (Z.lor 0x80 (Z.land r 0x3F))) EmptyString))
    else
      String (byte_of_Z (Z.lor 0xF0 (Z.shiftr r 18)))
        (String (byte_of_Z (Z.lor 0x80 (Z.land (Z.shiftr r 12) 0x3F)))
          (String (byte_of_Z (Z.lor 0x80 (Z.land (Z.shiftr r 6) 0x3F)))
            (String (byte_of_Z (Z.lor 0x80 (Z.land r 0x3F))) EmptyString))).

(** **** Package [unicode] *)

(** An entry of [unicode.CaseRanges], with its [Delta[LowerCase]]. *)
Record CaseRange := { Lo : Z; Hi : Z; DeltaLower : Z }.

(** The [UpperLower] delta: a range alternating upper-case letters (at
    even offsets from [Lo]) and their lower-case forms. *)
Definition UpperLower : Z := (MaxRune + 1)%Z.

Open Scope Z_scope.

(** The lower-case column of [unicode.CaseRanges]: the simple lowercase
    mappings of the Unicode Character Database (UnicodeData.txt, field
    13), as sorted disjoint ranges.  Regenerated from the database rather
    than copied from Go's tables.go, whose entries also carry the upper-
    and title-case deltas and are therefore split differently; the
    function [to] computes with them is the same. *)
Definition CaseRanges : list CaseRange := [
  {| Lo := 0x0041; Hi := 0x005A; DeltaLower := 32 |};
  {| Lo := 0x00C0; Hi := 0x00D6; DeltaLower := 32 |};
  {| Lo := 0x00D8; Hi := 0x00DE; DeltaLower := 32 |};
  {| Lo := 0x0100; Hi := 0x012F; DeltaLower := UpperLower |};
  {| Lo := 0x0130; Hi := 0x0130; DeltaLower := (-199) |};
  {| Lo := 0x0132; Hi := 0x0137; DeltaLower := UpperLower |};
  {| Lo := 0x0139; Hi := 0x0148; DeltaLower := UpperLower |};
  {| Lo := 0x014A; Hi := 0x0177; DeltaLower := UpperLower |};
  {| Lo := 0x0178; Hi := 0x0178; DeltaLower := (-121) |};
  {| Lo := 0x0179; Hi := 0x017E; DeltaLower := UpperLower |};
  {| Lo := 0x0181; Hi := 0x0181; DeltaLower := 210 |};
  {| Lo := 0x0182; Hi := 0x0185; DeltaLower := UpperLower |};
  {| Lo := 0x0186; Hi := 0x0186; DeltaLower := 206 |};
  {| Lo := 0x0187; Hi := 0x0187; DeltaLower := 1 |};
  {| Lo := 0x0189; Hi := 0x018A; DeltaLower := 205 |};
  {| Lo := 0x018B; Hi := 0x018B; DeltaLower := 1 |};
  {| Lo := 0x018E; Hi := 0x018E; DeltaLower := 79 |};
  {| Lo := 0x018F; Hi := 0x018F; DeltaLower := 202 |};
  {| Lo := 0x0190; Hi := 0x0190; DeltaLower := 203 |};
  {| Lo := 0x0191; Hi := 0x0191; DeltaLower := 1 |};
  {| Lo := 0x0193; Hi := 0x0193; DeltaLower := 205 |};
  {| Lo := 0x0194; Hi := 0x0194; DeltaLower := 207 |};
  {| Lo := 0x0196; Hi := 0x0196; DeltaLower := 211 |};
  {| Lo := 0x0197; Hi := 0x0197; DeltaLower := 209 |};
  {| Lo := 0x0198; Hi := 0x0198; DeltaLower := 1 |};
  {| Lo := 0x019C; Hi := 0x019C; DeltaLower := 211 |};
  {| Lo := 0x019D; Hi := 0x019D; DeltaLower := 213 |};
  {| Lo := 0x019F; Hi := 0x019F; DeltaLower := 214 |};
  {| Lo := 0x01A0; Hi := 0x01A5; DeltaLower := UpperLower |};
  {| Lo := 0x01A6; Hi := 0x01A6; DeltaLower := 218 |};
  {| Lo := 0x01A7; Hi := 0x01A7; DeltaLower := 1 |};
  {| Lo := 0x01A9; Hi := 0x01A9; DeltaLower := 218 |};
  {| Lo := 0x01AC; Hi := 0x01AC; DeltaLower := 1 |};
  {| Lo := 0x01AE; Hi := 0x01AE; DeltaLower := 218 |};
  {| Lo := 0x01AF; Hi := 0x01AF; DeltaLower := 1 |};
  {| Lo := 0x01B1; Hi := 0x01B2; DeltaLower := 217 |};
  {| Lo := 0x01B3; Hi := 0x01B6; DeltaLower := UpperLower |};
  {| Lo := 0x01B7; Hi := 0x01B7; DeltaLower := 219 |};
  {| Lo := 0x01B8; Hi := 0x01B8; DeltaLower := 1 |};
  {| Lo := 0x01BC; Hi := 0x01BC; DeltaLower := 1 |};
  {| Lo := 0x01C4; Hi := 0x01C4; DeltaLower := 2 |};
  {| Lo := 0x01C5; Hi := 0x01C5; DeltaLower := 1 |};
  {| Lo := 0x01C7; Hi := 0x01C7; DeltaLower := 2 |};
  {| Lo := 0x01C8; Hi := 0x01C8; DeltaLower := 1 |};
  {| Lo := 0x01CA; Hi := 0x01CA; DeltaLower := 2 |};
  {| Lo := 0x01CB; Hi := 0x01DC; DeltaLower := UpperLower |};
  {| Lo := 0x01DE; Hi := 0x01EF; DeltaLower := UpperLower |};
  {| Lo := 0x01F1; Hi := 0x01F1; DeltaLower := 2 |};
  {| Lo := 0x01F2; Hi := 0x01F5; DeltaLower := UpperLower |};
  {| Lo := 0x01F6; Hi := 0x01F6; DeltaLower := (-97) |};
  {| Lo := 0x01F7; Hi := 0x01F7; DeltaLower := (-56) |};
  {| Lo := 0x01F8; Hi := 0x021F; DeltaLower := UpperLower |};
  {| Lo := 0x0220; Hi := 0x0220; DeltaLower := (-130) |};
  {| Lo := 0x0222; Hi := 0x0233; DeltaLower := UpperLower |};
  {| Lo := 0x023A; Hi := 0x023A; DeltaLower := 10795 |};
  {| Lo := 0x023B; Hi := 0x023B; DeltaLower := 1 |};
  {| Lo := 0x023D; Hi := 0x023D; DeltaLower := (-163) |};
  {| Lo := 0x023E; Hi := 0x023E; DeltaLower := 10792 |};
  {| Lo := 0x0241; Hi := 0x0241; DeltaLower := 1 |};
  {| Lo := 0x0243; Hi := 0x0243; DeltaLower := (-195) |};
  {| Lo := 0x0244; Hi := 0x0244; DeltaLower := 69 |};
  {| Lo := 0x0245; Hi := 0x0245; DeltaLower := 71 |};
  {| Lo := 0x0246; Hi := 0x024F; DeltaLower := UpperLower |};
  {| Lo := 0x0370; Hi := 0x0373; DeltaLower := UpperLower |};
  {| Lo := 0x0376; Hi := 0x0376; DeltaLower := 1 |};
  {| Lo := 0x037F; Hi := 0x037F; DeltaLower := 116 |};
  {| Lo := 0x0386; Hi := 0x0386; DeltaLower := 38 |};
  {| Lo := 0x0388; Hi := 0x038A; DeltaLower := 37 |};
  {| Lo := 0x038C; Hi := 0x038C; DeltaLower := 64 |};
  {| Lo := 0x038E; Hi := 0x038F; DeltaLower := 63 |};
  {| Lo := 0x0391; Hi := 0x03A1; DeltaLower := 32 |};
  {| Lo := 0x03A3; Hi := 0x03AB; DeltaLower := 32 |};
  {| Lo := 0x03CF; Hi := 0x03CF; DeltaLower := 8 |};
  {| Lo := 0x03D8; Hi := 0x03EF; DeltaLower := UpperLower |};
  {| Lo := 0x03F4; Hi := 0x03F4; DeltaLower := (-60) |};
  {| Lo := 0x03F7; Hi := 0x03F7; DeltaLower := 1 |};
  {| Lo := 0x03F9; Hi := 0x03F9; DeltaLower := (-7) |};
  {| Lo := 0x03FA; Hi := 0x03FA; DeltaLower := 1 |};
  {| Lo := 0x03FD; Hi := 0x03FF; DeltaLower := (-130) |};
  {| Lo := 0x0400; Hi := 0x040F; DeltaLower := 80 |};
  {| Lo := 0x0410; Hi := 0x042F; DeltaLower := 32 |};
  {| Lo := 0x0460; Hi := 0x0481; DeltaLower := UpperLower |};
  {| Lo := 0x048A; Hi := 0x04BF; DeltaLower := UpperLower |};
  {| Lo := 0x04C0; Hi := 0x04C0; DeltaLower := 15 |};
  {| Lo := 0x04C1; Hi := 0x04CE; DeltaLower := UpperLower |};
  {| Lo := 0x04D0; Hi := 0x052F; DeltaLower := UpperLower |};
  {| Lo := 0x0531; Hi := 0x0556; DeltaLower := 48 |};
  {| Lo := 0x10A0; Hi := 0x10C5; DeltaLower := 7264 |};
  {| Lo := 0x10C7; Hi := 0x10C7; DeltaLower := 7264 |};
  {| Lo := 0x10CD; Hi := 0x10CD; DeltaLower := 7264 |};
  {| Lo := 0x13A0; Hi := 0x13EF; DeltaLower := 38864 |};
  {| Lo := 0x13F0; Hi := 0x13F5; DeltaLower := 8 |};
  {| Lo := 0x1C90; Hi := 0x1CBA; DeltaLower := (-3008) |};
  {| Lo := 0x1CBD; Hi := 0x1CBF; DeltaLower := (-3008) |};
  {| Lo := 0x1E00; Hi := 0x1E95; DeltaLower := UpperLower |};
  {| Lo := 0x1E9E; Hi := 0x1E9E; DeltaLower := (-7615) |};
  {| Lo := 0x1EA0; Hi := 0x1EFF; DeltaLower := UpperLower |};
  {| Lo := 0x1F08; Hi := 0x1F0F; DeltaLower := (-8) |};
  {| Lo := 0x1F18; Hi := 0x1F1D; DeltaLower := (-8) |};
  {| Lo := 0x1F28; Hi := 0x1F2F; DeltaLower := (-8) |};
  {| Lo := 0x1F38; Hi := 0x1F3F; DeltaLower := (-8) |};
  {| Lo := 0x1F48; Hi := 0x1F4D; DeltaLower := (-8) |};
  {| Lo := 0x1F59; Hi := 0x1F59; DeltaLower := (-8) |};
  {| Lo := 0x1F5B; Hi := 0x1F5B; DeltaLower := (-8) |};
  {| Lo := 0x1F5D; Hi := 0x1F5D; DeltaLower := (-8) |};
  {| Lo := 0x1F5F; Hi := 0x1F5F; DeltaLower := (-8) |};
  {| Lo := 0x1F68; Hi := 0x1F6F; DeltaLower := (-8) |};
  {| Lo := 0x1F88; Hi := 0x1F8F; DeltaLower := (-8) |};
  {| Lo := 0x1F98; Hi := 0x1F9F; DeltaLower := (-8) |};
  {| Lo := 0x1FA8; Hi := 0x1FAF; DeltaLower := (-8) |};
  {| Lo := 0x1FB8; Hi := 0x1FB9; DeltaLower := (-8) |};
  {| Lo := 0x1FBA; Hi := 0x1FBB; DeltaLower := (-74) |};
  {| Lo := 0x1FBC; Hi := 0x1FBC; DeltaLower := (-9) |};
  {| Lo := 0x1FC8; Hi := 0x1FCB; DeltaLower := (-86) |};
  {| Lo := 0x1FCC; Hi := 0x1FCC; DeltaLower := (-9) |};
  {| Lo := 0x1FD8; Hi := 0x1FD9; DeltaLower := (-8) |};
  {| Lo := 0x1FDA; Hi := 0x1FDB; DeltaLower := (-100) |};
  {| Lo := 0x1FE8; Hi := 0x1FE9; DeltaLower := (-8) |};
  {| Lo := 0x1FEA; Hi := 0x1FEB; DeltaLower := (-112) |};
  {| Lo := 0x1FEC; Hi := 0x1FEC; DeltaLower := (-7) |};
  {| Lo := 0x1FF8; Hi := 0x1FF9; DeltaLower := (-128) |};
  {| Lo := 0x1FFA; Hi := 0x1FFB; DeltaLower := (-126) |};
  {| Lo := 0x1FFC; Hi := 0x1FFC; DeltaLower := (-9) |};
  {| Lo := 0x2126; Hi := 0x2126; DeltaLower := (-7517) |};
  {| Lo := 0x212A; Hi := 0x212A; DeltaLower := (-8383) |};
  {| Lo := 0x212B; Hi := 0x212B; DeltaLower := (-8262) |};
  {| Lo := 0x2132; Hi := 0x2132; DeltaLower := 28 |};
  {| Lo := 0x2160; Hi := 0x216F; DeltaLower := 16 |};
  {| Lo := 0x2183; Hi := 0x2183; DeltaLower := 1 |};
  {| Lo := 0x24B6; Hi := 0x24CF; DeltaLower := 26 |};
  {| Lo := 0x2C00; Hi := 0x2C2F; DeltaLower := 48 |};
  {| Lo := 0x2C60; Hi := 0x2C60; DeltaLower := 1 |};
  {| Lo := 0x2C62; Hi := 0x2C62; DeltaLower := (-10743) |};
  {| Lo := 0x2C63; Hi := 0x2C63; DeltaLower := (-3814) |};
  {| Lo := 0x2C64; Hi := 0x2C64; DeltaLower := (-10727) |};
  {| Lo := 0x2C67; Hi := 0x2C6C; DeltaLower := UpperLower |};
  {| Lo := 0x2C6D; Hi := 0x2C6D; DeltaLower := (-10780) |};
  {| Lo := 0x2C6E; Hi := 0x2C6E; DeltaLower := (-10749) |};
  {| Lo := 0x2C6F; Hi := 0x2C6F; DeltaLower := (-10783) |};
  {| Lo := 0x2C70; Hi := 0x2C70; DeltaLower := (-10782) |};
  {| Lo := 0x2C72; Hi := 0x2C72; DeltaLower := 1 |};
  {| Lo := 0x2C75; Hi := 0x2C75; DeltaLower := 1 |};
  {| Lo := 0x2C7E; Hi := 0x2C7F; DeltaLower := (-10815) |};
  {| Lo := 0x2C80; Hi := 0x2CE3; DeltaLower := UpperLower |};
  {| Lo := 0x2CEB; Hi := 0x2CEE; DeltaLower := UpperLower |};
  {| Lo := 0x2CF2; Hi := 0x2CF2; DeltaLower := 1 |};
  {| Lo := 0xA640; Hi := 0xA66D; DeltaLower := UpperLower |};
  {| Lo := 0xA680; Hi := 0xA69B; DeltaLower := UpperLower |};
  {| Lo := 0xA722; Hi := 0xA72F; DeltaLower := UpperLower |};
  {| Lo := 0xA732; Hi := 0xA76F; DeltaLower := UpperLower |};
  {| Lo := 0xA779; Hi := 0xA77C; DeltaLower := UpperLower |};
  {| Lo := 0xA77D; Hi := 0xA77D; DeltaLower := (-35332) |};
  {| Lo := 0xA77E; Hi := 0xA787; DeltaLower := UpperLower |};
  {| Lo := 0xA78B; Hi := 0xA78B; DeltaLower := 1 |};
  {| Lo := 0xA78D; Hi := 0xA78D; DeltaLower := (-42280) |};
  {| Lo := 0xA790; Hi := 0xA793; DeltaLower := UpperLower |};
  {| Lo := 0xA796; Hi := 0xA7A9; DeltaLower := UpperLower |};
  {| Lo := 0xA7AA; Hi := 0xA7AA; DeltaLower := (-42308) |};
  {| Lo := 0xA7AB; Hi := 0xA7AB; DeltaLower := (-42319) |};
  {| Lo := 0xA7AC; Hi := 0xA7AC; DeltaLower := (-42315) |};
  {| Lo := 0xA7AD; Hi := 0xA7AD; DeltaLower := (-42305) |};
  {| Lo := 0xA7AE; Hi := 0xA7AE; DeltaLower := (-42308) |};
  {| Lo := 0xA7B0; Hi := 0xA7B0; DeltaLower := (-42258) |};
  {| Lo := 0xA7B1; Hi := 0xA7B1; DeltaLower := (-42282) |};
  {| Lo := 0xA7B2; Hi := 0xA7B2; DeltaLower := (-42261) |};
  {| Lo := 0xA7B3; Hi := 0xA7B3; DeltaLower := 928 |};
  {| Lo := 0xA7B4; Hi := 0xA7C3; DeltaLower := UpperLower |};
  {| Lo := 0xA7C4; Hi := 0xA7C4; DeltaLower := (-48) |};
  {| Lo := 0xA7C5; Hi := 0xA7C5; DeltaLower := (-42307) |};
  {| Lo := 0xA7C6; Hi := 0xA7C6; DeltaLower := (-35384) |};
  {| Lo := 0xA7C7; Hi := 0xA7CA; DeltaLower := UpperLower |};
  {| Lo := 0xA7D0; Hi := 0xA7D0; DeltaLower := 1 |};
  {| Lo := 0xA7D6; Hi := 0xA7D9; DeltaLower := UpperLower |};
  {| Lo := 0xA7F5; Hi := 0xA7F5; DeltaLower := 1 |};
  {| Lo := 0xFF21; Hi := 0xFF3A; DeltaLower := 32 |};
  {| Lo := 0x10400; Hi := 0x10427; DeltaLower := 40 |};
  {| Lo := 0x104B0; Hi := 0x104D3; DeltaLower := 40 |};
  {| Lo := 0x10570; Hi := 0x1057A; DeltaLower := 39 |};
  {| Lo := 0x1057C; Hi := 0x1058A; DeltaLower := 39 |};
  {| Lo := 0x1058C; Hi := 0x10592; DeltaLower := 39 |};
  {| Lo := 0x10594; Hi := 0x10595; DeltaLower := 39 |};
  {| Lo := 0x10C80; Hi := 0x10CB2; DeltaLower := 64 |};
  {| Lo := 0x118A0; Hi := 0x118BF; DeltaLower := 32 |};
  {| Lo := 0x16E40; Hi := 0x16E5F; DeltaLower := 32 |};
  {| Lo := 0x1E900; Hi := 0x1E921; DeltaLower := 34 |}
].

Close Scope Z_scope.

Definition dummy_range : CaseRange := {| Lo := 0; Hi := 0; DeltaLower := 0 |}.

(** The binary search of [unicode.to(LowerCase, r, CaseRanges)];
    [fuel] bounds the iterations, which halve [hi - lo]. *)
Fixpoint to_search (fuel lo hi : nat) (r : Z) : Z * bool :=
  match fuel with
  | O => (r, false)
  | S fuel' =>
      if Nat.ltb lo hi then
        let m := Nat.div (lo + hi) 2 in
        let cr := nth m CaseRanges dummy_range in
        if (Lo cr <=? r)%Z && (r <=? Hi cr)%Z then
          let delta := DeltaLower cr in
          if (MaxRune <? delta)%Z
          then ((Lo cr + Z.lor (Z.land (r - Lo cr) (-2)) 1)%Z, true)
          else ((r + delta)%Z, true)
        else if (r <? Lo cr)%Z then to_search fuel' lo m r
        else to_search fuel' (S m) hi r
      else (r, false)
  end.

(** [unicode.ToLower]. *)
Definition unicode_ToLower (r : Z) : Z :=
  if (r <=? 127)%Z then (if (65 <=? r)%Z && (r <=? 90)%Z then (r + 32)%Z else r)
  else fst (to_search (S (length CaseRanges)) 0 (length CaseRanges) r).

(** **** [strings.Map] and [strings.ToLower] *)

(** The second loop of [strings.Map]: every remaining rune is mapped and
    written ([WriteByte] below [RuneSelf], [WriteRune] above); [fuel] is
    the number of bytes left. *)
Fixpoint map_rest (mapping : Z -> Z) (fuel : nat) (s : string) : string :=
  match fuel with
  | O => EmptyString
  | S fuel' =>
      match s with
      | EmptyString => EmptyString
      | String _ _ =>
          let '(c, _, rest) := DecodeRuneInString s in
          let r := mapping c in
          (if (0 <=? r)%Z then EncodeRune r else EmptyString) ++ map_rest mapping fuel' rest
      end
  end.

(** The first loop of [strings.Map] over [orig], at byte [i] with [s]
    the bytes from [i] on: runes the mapping keeps are skipped; at the
    first rune it changes (or an invalid byte, decoded as [RuneError] of
    width 1) the prefix [orig[:i]] is written, then the mapped rune, then
    the second loop on the rest; when no rune changes, [orig] itself is
    returned. *)
Fixpoint map_first (mapping : Z -> Z) (fuel : nat) (orig : string) (i : nat) (s : string) : string :=
  match fuel with
  | O => orig
  | S fuel' =>
      match s with
      | EmptyString => orig
      | String _ _ =>
          let '(c, width, rest) := DecodeRuneInString s in
          let r := mapping c in
          if (r =? c)%Z && negb (c =? RuneError)%Z then map_first mapping fuel' orig (i + width) rest
          else if (c =? RuneError)%Z && negb (Nat.eqb width 1) && (r =? c)%Z
          then map_first mapping fuel' orig (i + width) rest
          else substring 0 i orig ++ (if (0 <=? r)%Z then EncodeRune r else EmptyString) ++
               map_rest mapping fuel' rest
      end
  end.

(** [strings.Map(mapping, s)]; a negative mapped value drops the rune. *)
Definition Map (mapping : Z -> Z) (s : string) : string :=
  map_first mapping (String.length s) s 0 s.

(** [strings.ToLower]. *)
Definition ToLower (s : string) : string :=
  let (isASCII, hasUpper) := ascii_scan s in
  if isASCII then (if negb hasUpper then s else lower_ascii_bytes s)
  else Map unicode_ToLower s.

(** ** Decimal formatting and parsing of Go [int]s (64-bit) *)

Definition digit_char (d : nat) : ascii := ascii_of_nat (48 + d).

Fixpoint digits_of_pos_aux (fuel : nat) (n : N) (acc : string) : string :=
  match fuel with
  | O => acc
  | S fuel' =>
      let acc' := String (digit_char (N.to_nat (N.modulo n 10))) acc in
      if (n <? 10)%N then acc' else digits_of_pos_aux fuel' (N.div n 10) acc'
  end.

Definition digits_of_N (n : N) : string :=
  digits_of_pos_aux (S (N.size_nat n)) n EmptyString.

(** [fmt.Sprintf("%d", z)] and [strconv.Itoa z]. *)
Definition Itoa (z : Z) : string :=
  if (z <? 0)%Z then String "-" (digits_of_N (Z.to_N (- z))) else digits_of_N (Z.to_N z).

Definition min_int : Z := (- 2 ^ 63)%Z.
Definition max_int : Z := (2 ^ 63 - 1)%Z.

(** Value of a decimal digit byte. *)
Definition digit_value (c : ascii) : option nat :=
  let n := nat_of_ascii c in
  if Nat.leb 48 n && Nat.leb n 57 then Some (n - 48) else None.

(** The digits loop of [strconv.ParseUint(s, 10, 64)], without the
    overflow check, which [ParseInt] performs on the final value below:
    with unbounded [Z] the two checks reject the same strings. *)
Fixpoint parse_digits (s : string) (acc : Z) : option Z :=
  match s with
  | EmptyString => Some acc
  | String c s' =>
      match digit_value c with
      | Some d => parse_digits s' (acc * 10 + Z.of_nat d)%Z
      | None => None
      end
  end.

(** [strconv.Atoi s] = [ParseInt(s, 10, 0)]: an optional sign, then one
    or more decimal digits (no underscores with an explicit base), and a
    value representable as a 64-bit [int].  [None] is a returned error;
    the caller [toInt] discards the value returned with an error, so it
    is not modelled. *)
Definition Atoi (s : string) : option Z :=
  let '(neg, body) :=
    match s with
    | String c s' =>
        if Ascii.eqb c "-" then (true, s')
        else if Ascii.eqb c "+" then (false, s')
        else (false, s)
    | EmptyString => (false, s)
    end in
  match body with
  | EmptyString => None
  | _ =>
      match parse_digits body 0 with
      | None => None
      | Some u =>
          let v := if neg then (- u)%Z else u in
          if (min_int <=? v)%Z && (v <=? max_int)%Z then Some v else None
      end
  end.

(** [toInt] (main.go). *)
Definition toInt (s : string) : Z :=
  match Atoi s with
  | Some i => i
  | None => 0%Z
  end.

(** ** Remote entities (the fields of go-gitlab's structs the program reads) *)

Record Group := { g_id : Z; g_name : string }.
Record Project := { pr_id : Z; pr_name : string }.
Record Branch := { b_name : string }.
Record Pipeline := {
  pl_id : Z; pl_status : string; pl_ref : string; pl_source : string;
  pl_updated : string (* UpdatedAt, already formatted "2006-01-02 15:04:05" *) }.
Record Job := { j_id : Z; j_name : string; j_status : string }.

(** A client call returns a value or an error ([err != nil]). *)
Inductive result (A : Type) : Type :=
| Ok (a : A)
| Err (e : string).
Arguments Ok {A} a.
Arguments Err {A} e.

(** The remote GitLab instance, as seen through the client calls the
    program makes.  [groups_pages] is the paginated group listing (page
    [k] is the [k]-th element, the server reports [TotalPages] = the
    number of pages).  A successful [retry] yields the server state after
    the mutation. *)
Inductive Server : Type := mkServer {
  groups_pages : result (list (list Group));
  group_projects : Z -> result (list Project);
  branches : string -> result (list Branch);
  project_pipelines : string -> string -> result (list Pipeline);
  pipeline_jobs : string -> Z -> result (list Job);
  trace_file : string -> Z -> result string;
  retry : string -> Z -> result Server }.

(** The pagination part of go-gitlab's [Response]. *)
Record Response := { CurrentPage : nat; TotalPages : nat; NextPage : nat }.

(** Page [page] of a listing; an unset page ([0], [ListGroupsOptions{}])
    is the server's default, page 1. *)
Definition page_index (page : nat) : nat := Nat.pred (Nat.max page 1).

Definition groups_response (pages : list (list Group)) (page : nat) : list Group * Response :=
  let cur := S (page_index page) in
  (nth (page_index page) pages [],
   {| CurrentPage := cur; TotalPages := length pages;
      NextPage := if Nat.ltb cur (length pages) then S cur else 0 |}).

(** Requests sent by the client, in order. *)
Inductive Request :=
| RqListGroups (page : nat)
| RqListGroupProjects (gid : Z)
| RqListBranches (pid : string)
| RqListProjectPipelines (pid : string) (ref : string)
| RqListPipelineJobs (pid : string) (pipeline : Z)
| RqGetTraceFile (pid : string) (job : Z)
| RqRetryJob (pid : string) (job : Z).

(** ** tview values *)

Inductive Color := ColorYellow | ColorOrange | ColorOrangeRed | ColorWhiteSmoke | ColorDarkGrey.

(** The dynamic value stored by [TreeNode.SetReference] ([interface{}]):
    nil, a [string], or a value of another type. *)
Inductive Reference :=
| RefNil
| RefString (s : string)
| RefInt (z : Z).

Inductive TreeNode : Type := mkNode {
  text : string; color : Color; selectable : bool;
  reference : Reference; children : list TreeNode }.

(** [tview.NewTreeNode]: selectable, no reference, no children. *)
Definition NewTreeNode (t : string) (c : Color) : TreeNode := mkNode t c true RefNil [].

(** The primitive passed to [app.SetRoot]; each constructor carries the
    values its closures capture. *)
Inductive Root :=
| StartModal                                   (* "Choose an Option" *)
| SearchInput                                  (* "Enter Group Name: " *)
| TreeView (root : TreeNode)                   (* buildTree *)
| BranchDropDown (projectID : string) (branches : list Branch)
| PipelineList (projectID branch : string) (pipelines : list Pipeline)
| JobList (projectID pipelineName : string) (jobs : list Job)
| JobActionModal (projectID pipelineName : string) (jobs : list Job) (job : Job)
| LogView (logs : string) (returnToModal : Root).

(** Go's [gitlab.Client]: the token and base URL it was built with. *)
Record Client := { c_token : string; c_baseURL : string }.

(** The process state.  [gitlabClient] and [gitlabURL] are the package
    globals set by [init] (the global [token] is shadowed there and never
    assigned, so it is left out). *)
Record St := {
  gitlabClient : Client;
  gitlabURL : string;
  root : Root;
  server : Server;
  requests : list Request;
  stdout : list string }.

(** ** A state monad over [St] *)

Definition M (A : Type) : Type := St -> A * St.
Definition ret {A} (a : A) : M A := fun st => (a, st).
Definition bind {A B} (m : M A) (k : A -> M B) : M B :=
  fun st => let (a, st') := m st in k a st'.
Notation "x <- m ;; k" := (bind m (fun x => k)) (at level 61, m at next level, right associativity).
Notation "m ;; k" := (bind m (fun _ => k)) (at level 61, right associativity).

Definition gets {A} (f : St -> A) : M A := fun st => (f st, st).

Definition println (line : string) : M unit :=
  fun st => (tt, {| gitlabClient := gitlabClient st; gitlabURL := gitlabURL st; root := root st;
                    server := server st; requests := requests st; stdout := app (stdout st) [line] |}).

(** [app.SetRoot(r, _)]. *)
Definition SetRoot (r : Root) : M unit :=
  fun st => (tt, {| gitlabClient := gitlabClient st; gitlabURL := gitlabURL st; root := r;
                    server := server st; requests := requests st; stdout := stdout st |}).

Definition send (rq : Request) : M unit :=
  fun st => (tt, {| gitlabClient := gitlabClient st; gitlabURL := gitlabURL st; root := root st;
                    server := server st; requests := app (requests st) [rq]; stdout := stdout st |}).

Definition set_server (s : Server) : M unit :=
  fun st => (tt, {| gitlabClient := gitlabClient st; gitlabURL := gitlabURL st; root := root st;
                    server := s; requests := requests st; stdout := stdout st |}).

(** ** The client calls ([gitlabClient.X.Y(...)]) *)

Definition ListGroups (page : nat) : M (result (list Group * Response)) :=
  send (RqListGroups page);;
  srv <- gets server;;
  ret (match groups_pages srv with
       | Ok pages => Ok (groups_response pages page)
       | Err e => Err e
       end).

Definition ListGroupProjects (gid : Z) : M (result (list Project)) :=
  send (RqListGroupProjects gid);; srv <- gets server;; ret (group_projects srv gid).

Definition ListBranches (pid : string) : M (result (list Branch)) :=
  send (RqListBranches pid);; srv <- gets server;; ret (branches srv pid).

Definition ListProjectPipelines (pid ref : string) : M (result (list Pipeline)) :=
  send (RqListProjectPipelines pid ref);; srv <- gets server;; ret (project_pipelines srv pid ref).

Definition ListPipelineJobs (pid : string) (pipeline : Z) : M (result (list Job)) :=
  send (RqListPipelineJobs pid pipeline);; srv <- gets server;; ret (pipeline_jobs srv pid pipeline).

Definition GetTraceFile (pid : string) (job : Z) : M (result string) :=
  send (RqGetTraceFile pid job);; srv <- gets server;; ret (trace_file srv pid job).

Definition RetryJob (pid : string) (job : Z) : M (result unit) :=
  send (RqRetryJob pid job);;
  srv <- gets server;;
  match retry srv pid job with
  | Ok srv' => set_server srv';; ret (Ok tt)
  | Err e => ret (Err e)
  end.

(** ** The handlers of main.go *)

Definition group_label (g : Group) : string := group_icon ++ " Group: " ++ g_name g.

(** The project node of [buildGroups], with its reference
    [fmt.Sprintf("%d", project.ID)]. *)
Definition project_node (p : Project) : TreeNode :=
  mkNode ("Project: " ++ pr_name p) ColorDarkGrey true (RefString (Itoa (pr_id p))) [].

(** The filter condition of [buildGroups]. *)
Definition group_matches (searchTerm : string) (g : Group) : bool :=
  String.eqb searchTerm "" || Contains (ToLower (g_name g)) (ToLower searchTerm).

(** The [for _, group := range groups] loop of [buildGroups]. *)
Fixpoint group_nodes (searchTerm : string) (groups : list Group) : M (list TreeNode) :=
  match groups with
  | [] => ret []
  | group :: rest =>
      if group_matches searchTerm group then
        r <- ListGroupProjects (g_id group);;
        groupNode <-
          match r with
          | Err e =>
              println ("Error fetching projects for group " ++ g_name group ++ " : " ++ e);;
              ret (NewTreeNode (group_label group) ColorWhiteSmoke)
          | Ok projects =>
              ret (mkNode (group_label group) ColorWhiteSmoke true RefNil (map project_node projects))
          end;;
        others <- group_nodes searchTerm rest;;
        ret (groupNode :: others)
      else group_nodes searchTerm rest
  end.

Definition instance_node (url : string) (ch : list TreeNode) : TreeNode :=
  mkNode (instance_icon ++ " Instance: " ++ url) ColorOrangeRed true RefNil ch.

(** [buildGroups(searchTerm)]: one [ListGroups] call with
    [&gitlab.ListGroupsOptions{}] (no page set). *)
Definition buildGroups (searchTerm : string) : M TreeNode :=
  url <- gets gitlabURL;;
  r <- ListGroups 0;;
  match r with
  | Err e => println ("Error fetching groups: " ++ e);; ret (instance_node url [])
  | Ok (groups, _) =>
      ch <- group_nodes searchTerm groups;;
      ret (instance_node url ch)
  end.

(** [buildTree(app, searchTerm)]. *)
Definition buildTree (searchTerm : string) : M Root :=
  g <- buildGroups searchTerm;;
  ret (TreeView (mkNode "GitLab Pipelines" ColorYellow false RefNil [g])).

(** [showPipelines(app, projectNode)]. *)
Definition showPipelines (projectNode : TreeNode) : M unit :=
  match reference projectNode with
  | RefString projectID =>
      r <- ListBranches projectID;;
      match r with
      | Err e => println ("Error fetching branches for project " ++ projectID ++ " : " ++ e)
      | Ok bs => SetRoot (BranchDropDown projectID bs)
      end
  | _ => println "Invalid project reference"
  end.

(** [fetchAndShowPipelines(app, projectID, branch)]. *)
Definition fetchAndShowPipelines (projectID branch : string) : M unit :=
  r <- ListProjectPipelines projectID branch;;
  match r with
  | Err e =>
      println ("Error fetching pipelines for project " ++ projectID ++ " and branch " ++ branch ++ " : " ++ e)
  | Ok projectPipelines => SetRoot (PipelineList projectID branch projectPipelines)
  end.

(** [rebuildJobListView(app, pipelineJobs, projectID, pipelineName)]. *)
Definition rebuildJobListView (pipelineJobs : list Job) (projectID pipelineName : string) : Root :=
  JobList projectID pipelineName pipelineJobs.

(** [fetchAndShowJobs(app, projectID, pipelineID, pipelineName)]. *)
Definition fetchAndShowJobs (projectID pipelineID pipelineName : string) : M unit :=
  r <- ListPipelineJobs projectID (toInt pipelineID);;
  match r with
  | Err e =>
      println ("Error fetching jobs for project " ++ projectID ++ " and pipeline " ++ pipelineID ++ " : " ++ e)
  | Ok pipelineJobs => SetRoot (rebuildJobListView pipelineJobs projectID pipelineName)
  end.

(** [fetchAndDisplayJobLogs(app, projectID, jobID, returnToModal)]; the
    closure [returnToModal] is the root it sets.  [io.ReadAll] of the
    returned [bytes.Reader] cannot fail. *)
Definition fetchAndDisplayJobLogs (projectID jobID : string) (returnToModal : Root) : M unit :=
  r <- GetTraceFile projectID (toInt jobID);;
  match r with
  | Err e => println ("Error fetching logs: " ++ e)
  | Ok logs => SetRoot (LogView logs returnToModal)
  end.

(** [retryJob(app, projectID, jobID)]. *)
Definition retryJob (projectID jobID : string) : M unit :=
  r <- RetryJob projectID (toInt jobID);;
  match r with
  | Err e => println ("Error retrying job: " ++ e)
  | Ok _ => println "Job retried successfully"
  end.

(** The [SetDoneFunc] of the job action modal. *)
Definition jobActionDone (pipelineJobs : list Job) (projectID pipelineName : string)
    (selectedJob : Job) (buttonLabel : string) : M unit :=
  let returnToJobList := SetRoot (rebuildJobListView pipelineJobs projectID pipelineName) in
  if String.eqb buttonLabel "Logs" then
    fetchAndDisplayJobLogs projectID (Itoa (j_id selectedJob))
      (rebuildJobListView pipelineJobs projectID pipelineName)
  else if String.eqb buttonLabel "Retry" then
    retryJob projectID (Itoa (j_id selectedJob));; returnToJobList
  else if String.eqb buttonLabel "Cancel" then returnToJobList
  else ret tt.

(** Input events, as tview delivers them to the program's callbacks. *)
Inductive Event :=
| ButtonChoice (label : string)  (* a Modal's done func; Esc gives the label "" *)
| SubmitText (text : string)     (* Enter in the input field, with its text *)
| SelectNode (node : TreeNode)   (* the TreeView's selected func *)
| SelectOption (index : nat)     (* the DropDown's selected func *)
| SelectItem (index : nat)       (* Enter on a List item *)
| KeyEsc                         (* Esc, caught by an input capture *)
| BackButton.                    (* the "ESC - Back" button *)

(** Dispatch of an event to the callbacks of the current root. *)
Definition handle (ev : Event) : M unit :=
  r <- gets root;;
  match r, ev with
  | StartModal, ButtonChoice label =>
      if String.eqb label "List all groups" then t <- buildTree "";; SetRoot t
      else if String.eqb label "Search group by name" then SetRoot SearchInput
      else ret tt
  | SearchInput, SubmitText searchTerm => t <- buildTree searchTerm;; SetRoot t
  | TreeView _, SelectNode node =>
      if HasPrefix (text node) "Project: " then showPipelines node else ret tt
  | BranchDropDown projectID bs, SelectOption optionIndex =>
      (* tview only reports indices of the options added, one per branch *)
      match nth_error bs optionIndex with
      | Some b => fetchAndShowPipelines projectID (b_name b)
      | None => ret tt
      end
  | PipelineList projectID branch ps, SelectItem i =>
      match nth_error ps i with
      | Some pipeline => fetchAndShowJobs projectID (Itoa (pl_id pipeline)) branch
      | None => ret tt
      end
  | PipelineList _ _ _, (KeyEsc | BackButton) => t <- buildTree "";; SetRoot t
  | JobList projectID pipelineName jobs, SelectItem index =>
      match nth_error jobs index with
      | Some selectedJob => SetRoot (JobActionModal projectID pipelineName jobs selectedJob)
      | None => ret tt
      end
  | JobList projectID pipelineName _, (KeyEsc | BackButton) =>
      fetchAndShowPipelines projectID pipelineName
  | JobActionModal projectID pipelineName jobs job, ButtonChoice label =>
      jobActionDone jobs projectID pipelineName job label
  | LogView _ returnToModal, (KeyEsc | BackButton) => SetRoot returnToModal
  | _, _ => ret tt
  end.

Fixpoint run (evs : list Event) : M unit :=
  match evs with
  | [] => ret tt
  | ev :: rest => handle ev;; run rest
  end.

(** ** Startup: [init] then [main] *)

(** The process environment: [os.Getenv] returns "" for an unset name. *)
Definition Getenv (env : string -> option string) (k : string) : string :=
  match env k with Some v => v | None => "" end.

Inductive Outcome :=
| Exit (code : nat) (out : list string)      (* os.Exit before main *)
| Started (client : Client) (url : string) (out : list string).

(** [init()]; [newClient] is [gitlab.NewClient(token, WithBaseURL(u))],
    which fails when the base URL does not parse. *)
Definition init (env : string -> option string) (newClient : string -> string -> result Client) : Outcome :=
  let token := Getenv env "GITLAB_PERSONAL_TOKEN" in
  if String.eqb token "" then Exit 1 ["Please set GITLAB_PERSONAL_TOKEN environment variable."]
  else
    let url0 := Getenv env "GITLAB_URL" in
    let gitlabURL := if String.eqb url0 "" then "https://gitlab.com" else url0 in
    match newClient token (gitlabURL ++ "/api/v4") with
    | Err e => Exit 1 ["Error creating GitLab client: " ++ e]
    | Ok c => Started c gitlabURL ["Connecting to Instance: " ++ gitlabURL]
    end.

Inductive Process :=
| Exited (code : nat) (out : list string)
| Ran (final : St).

(** The whole process: [init], then [main] shows the start modal and
    the event loop handles [evs]. *)
Definition process (env : string -> option string) (newClient : string -> string -> result Client)
    (srv : Server) (evs : list Event) : Process :=
  match init env newClient with
  | Exit code out => Exited code out
  | Started c url out =>
      Ran (snd (run evs {| gitlabClient := c; gitlabURL := url; root := StartModal;
                           server := srv; requests := []; stdout := out |}))
  end.

(** ** Views of the model used in the statements *)

(** Every node of a tree, in pre-order. *)
Fixpoint nodes (n : TreeNode) : list TreeNode :=
  n :: (fix go (l : list TreeNode) : list TreeNode :=
          match l with
          | [] => []
          | c :: cs => app (nodes c) (go cs)
          end) (children n).

(** The project and branch a job-level root was entered with. *)
Fixpoint origin (r : Root) : option (string * string) :=
  match r with
  | JobList p n _ => Some (p, n)
  | JobActionModal p n _ _ => Some (p, n)
  | LogView _ back => origin back
  | _ => None
  end.

(** The line break of Go's "\n". *)
Definition nl : string := String (byte 10) EmptyString.

(** The list item text of a job in [rebuildJobListView]. *)
Definition jobInfo (job : Job) : string :=
  "Job ID: " ++ Itoa (j_id job) ++ " " ++ nl ++ "Name: " ++ j_name job ++ " " ++ nl ++
  "Status: " ++ j_status job.

(** The list item text of a pipeline in [fetchAndShowPipelines]. *)
Definition pipelineInfo (p : Pipeline) : string :=
  "Pipeline ID: " ++ Itoa (pl_id p) ++ " " ++ nl ++ "Status: " ++ pl_status p ++ " " ++ nl ++
  "Ref: " ++ pl_ref p ++ " " ++ nl ++ "Source: " ++ pl_source p ++ " " ++ nl ++
  "Updated At: " ++ pl_updated p ++ " " ++ nl.

(** The items a list root displays. *)
Definition list_items (r : Root) : list string :=
  match r with
  | PipelineList _ _ ps => map pipelineInfo ps
  | JobList _ _ jobs => map jobInfo jobs
  | _ => []
  end.

(** The group labels of a tree root (children of the instance node). *)
Definition tree_groups (r : Root) : list string :=
  match r with
  | TreeView t => flat_map (fun inst => map text (children inst)) (children t)
  | _ => []
  end.

(** A navigation transition (branch chosen, pipeline chosen, back from a
    job list) whose client call fails. *)
Inductive nav_fetch_fails (st : St) : Event -> Prop :=
| branch_fetch_fails pid bs i b e :
    root st = BranchDropDown pid bs -> nth_error bs i = Some b ->
    project_pipelines (server st) pid (b_name b) = Err e ->
    nav_fetch_fails st (SelectOption i)
| pipeline_fetch_fails pid br ps i p e :
    root st = PipelineList pid br ps -> nth_error ps i = Some p ->
    pipeline_jobs (server st) pid (toInt (Itoa (pl_id p))) = Err e ->
    nav_fetch_fails st (SelectItem i)
| back_fetch_fails pid pn jobs ev e :
    root st = JobList pid pn jobs -> (ev = KeyEsc \/ ev = BackButton) ->
    project_pipelines (server st) pid pn = Err e ->
    nav_fetch_fails st ev.

(** A computation that leaves the configuration globals alone. *)
Definition keeps_config {A} (m : M A) : Prop :=
  forall st, gitlabURL (snd (m st)) = gitlabURL st /\ gitlabClient (snd (m st)) = gitlabClient st.

(** A decimal literal as the spec reads "parses as an integer": an
    optional sign followed by one or more decimal digits [ds], with its
    value. *)
Definition digits_string (ds : list nat) : string :=
  fold_right (fun d s => String (digit_char d) s) EmptyString ds.

Definition digits_val (ds : list nat) : Z :=
  fold_left (fun acc d => acc * 10 + Z.of_nat d)%Z ds 0%Z.

Inductive int_literal : string -> Z -> Prop :=
| lit_unsigned ds : ds <> [] -> Forall (fun d => d < 10) ds ->
    int_literal (digits_string ds) (digits_val ds)
| lit_plus ds : ds <> [] -> Forall (fun d => d < 10) ds ->
    int_literal (String "+" (digits_string ds)) (digits_val ds)
| lit_minus ds : ds <> [] -> Forall (fun d => d < 10) ds ->
    int_literal (String "-" (digits_string ds)) (- digits_val ds).

(** ** Concrete instances *)

Definition Alpha : Group := {| g_id := 1; g_name := "Alpha" |}.
Definition beta : Group := {| g_id := 2; g_name := "beta" |}.
Definition Alps : Group := {| g_id := 3; g_name := "Alps" |}.
Definition api : Project := {| pr_id := 42; pr_name := "api" |}.
Definition job99_failed : Job := {| j_id := 99; j_name := "test"; j_status := "failed" |}.
Definition job99_pending : Job := {| j_id := 99; j_name := "test"; j_status := "pending" |}.
Definition pipeline7 : Pipeline :=
  {| pl_id := 7; pl_status := "failed"; pl_ref := "main"; pl_source := "push";
     pl_updated := "2024-01-01 00:00:00" |}.

Definition demo_projects (gid : Z) : result (list Project) :=
  if Z.eqb gid 1 then Ok [api] else Ok [].

(** A group named "ÄRZTE" (UTF-8: C3 84 for the A with diaeresis). *)
Definition Aerzte : Group :=
  {| g_id := 4; g_name := String (byte 195) (String (byte 132) "RZTE") |}.

(** The search term "ärzte" (C3 A4 for the small a with diaeresis). *)
Definition aerzte_term : string := String (byte 195) (String (byte 164) "rzte").

(** Group 1 lists project api; every other group's project listing is
    refused. *)
Definition flaky_projects (gid : Z) : result (list Project) :=
  if Z.eqb gid 1 then Ok [api] else Err "403 Forbidden".

Definition flaky_server : Server :=
  mkServer (Ok [[Alpha; beta; Aerzte]]) flaky_projects (fun _ => Ok [])
    (fun _ _ => Ok []) (fun _ _ => Ok []) (fun _ _ => Ok "") (fun _ _ => Err "403 Forbidden").

(** After the retry: the listing of pipeline 7 shows job 99 pending. *)
Definition server_after_retry : Server :=
  mkServer (Ok [[Alpha; beta]; [Alps]]) demo_projects (fun _ => Ok [{| b_name := "main" |}])
    (fun _ _ => Ok [pipeline7]) (fun _ _ => Ok [job99_pending])
    (fun _ _ => Ok "job log") (fun _ _ => Err "409 Conflict").

(** Two pages of groups; job 99 of pipeline 7 failed; retries succeed. *)
Definition demo_server : Server :=
  mkServer (Ok [[Alpha; beta]; [Alps]]) demo_projects (fun _ => Ok [{| b_name := "main" |}])
    (fun _ _ => Ok [pipeline7]) (fun _ _ => Ok [job99_failed])
    (fun _ _ => Ok "job log") (fun _ _ => Ok server_after_retry).

(** Every call fails. *)
Definition down_server : Server :=
  mkServer (Err "network") (fun _ => Err "network") (fun _ => Err "network")
    (fun _ _ => Err "network") (fun _ _ => Err "network")
    (fun _ _ => Err "network") (fun _ _ => Err "network").

Definition demo_state (srv : Server) (r : Root) : St :=
  {| gitlabClient := {| c_token := "glpat-x"; c_baseURL := "https://gitlab.com/api/v4" |};
     gitlabURL := "https://gitlab.com"; root := r; server := srv; requests := []; stdout := [] |}.

Definition token_only_env (k : string) : option string :=
  if String.eqb k "GITLAB_PERSONAL_TOKEN" then Some "glpat-x" else None.

Definition accept_client (t u : string) : result Client := Ok {| c_token := t; c_baseURL := u |}.

Definition is_group_listing (rq : Request) : bool :=
  match rq with RqListGroups _ => true | _ => false end.

(** The projects shown under a group, and the line printed when they
    cannot be listed. *)
Definition group_children (srv : Server) (g : Group) : list TreeNode :=
  match group_projects srv (g_id g) with
  | Ok ps => map project_node ps
  | Err _ => []
  end.

Definition group_errors (srv : Server) (g : Group) : list string :=
  match group_projects srv (g_id g) with
  | Ok _ => []
  | Err e => ["Error fetching projects for group " ++ g_name g ++ " : " ++ e]
  end.

(** A computation that never changes the server and only appends
    requests other than [RetryJob]. *)
Definition read_only {A} (m : M A) : Prop :=
  forall st, server (snd (m st)) = server st /\
    exists fresh, requests (snd (m st)) = app (requests st) fresh /\
      forall pid j, ~ In (RqRetryJob pid j) fresh.

(** ** The second program of main.go (lines 354-680)

    It differs from the first in [init] (which lists the groups at
    startup), in [buildGroups] (no filter) and in [showPipelines], which
    offers the branches as buttons of a modal followed by "Cancel". *)
Module Program2.

(** The buttons of the branch modal: one per branch, then "Cancel". *)
Definition branchButtons (bs : list Branch) : list string :=
  app (map b_name bs) ["Cancel"].

(** The [SetDoneFunc] of the branch modal ([buttonIndex] is a Go [int];
    Esc reports -1).  Out of range, it only refocuses the modal. *)
Definition branchModalDone (projectID : string) (bs : list Branch) (buttonIndex : Z) : M unit :=
  if (0 <=? buttonIndex)%Z && (buttonIndex <? Z.of_nat (length bs))%Z then
    match nth_error bs (Z.to_nat buttonIndex) with
    | Some b => fetchAndShowPipelines projectID (b_name b)
    | None => ret tt
    end
  else ret tt.

(** [init()] of the second program: it also lists the groups once
    ([ListGroups] with empty options, the first page) and exits when that
    fails. *)
Definition init (env : string -> option string) (newClient : string -> string -> result Client)
    (srv : Server) : Outcome :=
  let token := Getenv env "GITLAB_PERSONAL_TOKEN" in
  if String.eqb token "" then Exit 1 ["Please set GITLAB_PERSONAL_TOKEN environment variable."]
  else
    let url0 := Getenv env "GITLAB_URL" in
    let gitlabURL := if String.eqb url0 "" then "https://gitlab.com" else url0 in
    match newClient token (gitlabURL ++ "/api/v4") with
    | Err e => Exit 1 ["Error creating GitLab client: " ++ e]
    | Ok c =>
        match groups_pages srv with
        | Err e => Exit 1 ["Error fetching groups: " ++ e]
        | Ok pages =>
            Started c gitlabURL
              (("Connecting to Instance: " ++ gitlabURL) ::
               map (fun g => "Group: " ++ g_name g) (fst (groups_response pages 0)))
        end
    end.

End Program2.

(** ** Proofs *)

Ltac unfold_m :=
  unfold bind, ret, gets, println, SetRoot, send, set_server,
    ListGroups, ListGroupProjects, ListBranches, ListProjectPipelines,
    ListPipelineJobs, GetTraceFile, RetryJob in *.

(** *** Strings *)

Lemma append_cancel (p a b : string) : p ++ a = p ++ b -> a = b.
Proof. induction p as [|c p IH]; simpl; [auto | intros H; inversion H; auto]. Qed.

Lemma HasPrefix_spec (s p : string) : HasPrefix s p = true <-> exists b, s = p ++ b.
Proof.
  revert s; induction p as [|c p IH]; intros s; simpl.
  - split; intros _; [exists s; reflexivity | destruct s; reflexivity].
  - destruct s as [|d s].
    + split; [discriminate | intros [b Hb]; discriminate].
    + simpl; rewrite andb_true_iff, Ascii.eqb_eq, IH. split.
      * intros [-> [b ->]]; eauto.
      * intros [b Hb]; inversion Hb; subst; eauto.
Qed.

Lemma Contains_spec (s t : string) : Contains s t = true <-> exists a b, s = a ++ t ++ b.
Proof.
  induction s as [|c s IH]; cbn [Contains]; rewrite orb_true_iff, HasPrefix_spec.
  - split.
    + intros [[b Hb] | H]; [exists "", b; auto | discriminate].
    + intros [a [b H]]; left; exists b; destruct a; [auto | discriminate].
  - rewrite IH. split.
    + intros [[b Hb] | [a [b Hab]]].
      * exists "", b; auto.
      * exists (String c a), b; rewrite Hab; auto.
    + intros [a [b H]]. destruct a as [|d a].
      * left; exists b; auto.
      * right; inversion H; subst; eauto.
Qed.

Lemma group_matches_spec (term : string) (g : Group) :
  group_matches term g = true <->
  term = "" \/ exists a b, ToLower (g_name g) = a ++ ToLower term ++ b.
Proof.
  unfold group_matches. rewrite orb_true_iff, String.eqb_eq, Contains_spec. tauto.
Qed.

(** *** [buildGroups] *)

Lemma group_nodes_spec (term : string) (gs : list Group) : forall st,
  let (ns, st') := group_nodes term gs st in
  map text ns = map group_label (filter (group_matches term) gs) /\
  (forall n, In n ns -> exists g ps,
      n = mkNode (group_label g) ColorWhiteSmoke true RefNil (map project_node ps)) /\
  requests st' = app (requests st) (map (fun g => RqListGroupProjects (g_id g)) (filter (group_matches term) gs)) /\
  server st' = server st /\ root st' = root st /\
  gitlabURL st' = gitlabURL st /\ gitlabClient st' = gitlabClient st.
Proof.
  induction gs as [|g gs IH]; intros st; cbn [group_nodes filter].
  - cbn. rewrite app_nil_r. repeat split; auto. intros n [].
  - destruct (group_matches term g) eqn:Hm.
    + unfold_m. cbn -[group_nodes].
      destruct (group_projects (server st) (g_id g)) as [ps | e]; cbn -[group_nodes].
      * match goal with |- context [group_nodes term gs ?s] =>
          specialize (IH s); destruct (group_nodes term gs s) as [ns st'] end.
        cbn in IH. destruct IH as (H1 & H2 & H3 & H4 & H5 & H6 & H7).
        cbn. rewrite H1, H3, <- app_assoc. repeat split; auto.
        intros n [<- | Hn]; [eauto | auto].
      * match goal with |- context [group_nodes term gs ?s] =>
          specialize (IH s); destruct (group_nodes term gs s) as [ns st'] end.
        cbn in IH. destruct IH as (H1 & H2 & H3 & H4 & H5 & H6 & H7).
        cbn. rewrite H1, H3, <- app_assoc. repeat split; auto.
        intros n [<- | Hn]; [exists g, []; reflexivity | auto].
    + apply IH.
Qed.

Lemma group_nodes_det (term : string) (gs : list Group) : forall st1 st2,
  server st1 = server st2 -> fst (group_nodes term gs st1) = fst (group_nodes term gs st2).
Proof.
  induction gs as [|g gs IH]; intros st1 st2 Hs; cbn [group_nodes]; [reflexivity|].
  destruct (group_matches term g); [|auto].
  unfold_m. cbn -[group_nodes]. rewrite Hs.
  destruct (group_projects (server st2) (g_id g)); cbn -[group_nodes];
  match goal with |- context [group_nodes term gs ?s1] =>
    match goal with |- context [group_nodes term gs ?s2] =>
      assert (E : fst (group_nodes term gs s1) = fst (group_nodes term gs s2)) by (apply IH; cbn; auto);
      destruct (group_nodes term gs s1), (group_nodes term gs s2); cbn in E |- *; congruence
    end end.
Qed.

Lemma buildGroups_spec (term : string) (st : St) (pages : list (list Group)) :
  groups_pages (server st) = Ok pages ->
  let gs := filter (group_matches term) (nth 0 pages []) in
  let (t, st') := buildGroups term st in
  (exists ch, t = instance_node (gitlabURL st) ch /\
     map text ch = map group_label gs /\
     forall n, In n ch -> exists g ps,
       n = mkNode (group_label g) ColorWhiteSmoke true RefNil (map project_node ps)) /\
  requests st' = app (requests st) (RqListGroups 0 :: map (fun g => RqListGroupProjects (g_id g)) gs) /\
  server st' = server st /\ root st' = root st /\
  gitlabURL st' = gitlabURL st /\ gitlabClient st' = gitlabClient st.
Proof.
  intros Hp gs. unfold buildGroups. unfold_m. cbn -[group_nodes]. rewrite Hp. cbn -[group_nodes].
  match goal with |- context [group_nodes term ?l ?s] =>
    pose proof (group_nodes_spec term l s) as G; destruct (group_nodes term l s) as [ch st'] end.
  cbn in G |- *. destruct G as (H1 & H2 & H3 & H4 & H5 & H6 & H7).
  rewrite H3, <- app_assoc. repeat split; auto. exists ch; auto.
Qed.

Lemma buildGroups_err (term : string) (st : St) (e : string) :
  groups_pages (server st) = Err e ->
  let (t, st') := buildGroups term st in
  t = instance_node (gitlabURL st) [] /\
  requests st' = app (requests st) [RqListGroups 0] /\
  server st' = server st /\ root st' = root st /\
  gitlabURL st' = gitlabURL st /\ gitlabClient st' = gitlabClient st.
Proof.
  intros He. unfold buildGroups. unfold_m. cbn. rewrite He. cbn. repeat split; auto.
Qed.

Lemma buildGroups_det (term : string) (st1 st2 : St) :
  server st1 = server st2 -> gitlabURL st1 = gitlabURL st2 ->
  fst (buildGroups term st1) = fst (buildGroups term st2).
Proof.
  intros Hs Hu. unfold buildGroups. unfold_m. cbn -[group_nodes]. rewrite Hs, Hu.
  destruct (groups_pages (server st2)) as [pages | e]; cbn -[group_nodes]; [|reflexivity].
  match goal with |- context [group_nodes term ?l ?s1] =>
    match goal with |- context [group_nodes term l ?s2] =>
      assert (E : fst (group_nodes term l s1) = fst (group_nodes term l s2))
        by (apply group_nodes_det; cbn; auto);
      destruct (group_nodes term l s1), (group_nodes term l s2); cbn in E |- *; congruence
    end end.
Qed.

Lemma group_matches_name (term : string) (g g' : Group) :
  g_name g = g_name g' -> group_matches term g = group_matches term g'.
Proof. unfold group_matches. intros ->. reflexivity. Qed.

Lemma group_label_inj (g g' : Group) : group_label g = group_label g' -> g_name g = g_name g'.
Proof. unfold group_label. intros H. apply append_cancel in H. apply append_cancel in H. exact H. Qed.

Lemma in_group_labels (term : string) (gs : list Group) (g : Group) :
  In g gs ->
  (In (group_label g) (map group_label (filter (group_matches term) gs)) <-> group_matches term g = true).
Proof.
  intros Hg. rewrite in_map_iff. split.
  - intros [g' [Hl Hin]]. apply filter_In in Hin. destruct Hin as [_ Hm].
    rewrite <- (group_matches_name term g' g); auto using group_label_inj.
  - intros Hm. exists g. split; auto. apply filter_In; auto.
Qed.

(** *** Group listing (C1, C4) *)

(** C1 (as stated, refuted): with two pages of groups, [buildGroups ""]
    sends one group-listing request and displays only the first page;
    "Alps", on page 2, is missing from the tree. *)
Lemma C1_counterexample :
  let st := demo_state demo_server StartModal in
  let (t, st') := buildGroups "" st in
  groups_pages (server st) = Ok [[Alpha; beta]; [Alps]] /\
  map text (children t) <> map group_label (concat [[Alpha; beta]; [Alps]]) /\
  filter is_group_listing (requests st') = [RqListGroups 0].
Proof. vm_compute. split; [reflexivity | split; [discriminate | reflexivity]]. Qed.

(** C1 (amended): whatever the number of pages, [buildGroups] sends a
    single group-listing request without a page number (the server's
    first page), and the tree shows exactly the matching groups of that
    first page, in server order. *)
Theorem C1_first_page_only (term : string) (st : St) (pages : list (list Group))
    (Hok : groups_pages (server st) = Ok pages) :
  let gs := filter (group_matches term) (nth 0 pages []) in
  let (t, st') := buildGroups term st in
  requests st' = app (requests st) (RqListGroups 0 :: map (fun g => RqListGroupProjects (g_id g)) gs) /\
  map text (children t) = map group_label gs.
Proof.
  intros gs. pose proof (buildGroups_spec term st pages Hok) as H. cbn zeta in H.
  destruct (buildGroups term st) as [t st'].
  destruct H as ((ch & -> & Hl & _) & Hr & _). split; auto.
Qed.

Lemma C1_first_page_only_witness :
  groups_pages (server (demo_state demo_server StartModal)) = Ok [[Alpha; beta]; [Alps]] /\
  let (t, st') := buildGroups "" (demo_state demo_server StartModal) in
  requests st' = [RqListGroups 0; RqListGroupProjects 1; RqListGroupProjects 2] /\
  map text (children t) = [group_label Alpha; group_label beta].
Proof.
  split; [reflexivity|].
  exact (C1_first_page_only "" (demo_state demo_server StartModal) [[Alpha; beta]; [Alps]] eq_refl).
Defined.

(** C4: the groups shown are, in order, the fetched groups whose
    lower-cased name contains the lower-cased search term, lower-casing
    being Go's [strings.ToLower] on UTF-8 (all groups for the empty
    term); "al" keeps "Alpha" and drops "beta"; and the
    result depends only on the term and the server, and filtering again
    changes nothing. *)
Theorem C4_group_filter (term : string) (st : St) (pages : list (list Group))
    (Hok : groups_pages (server st) = Ok pages) :
  let gs := nth 0 pages [] in
  let labels := map text (children (fst (buildGroups term st))) in
  labels = map group_label (filter (group_matches term) gs) /\
  (forall g, In g gs ->
     (In (group_label g) labels <->
      term = "" \/ exists a b, ToLower (g_name g) = a ++ ToLower term ++ b)) /\
  (gs = [Alpha; beta] -> term = "al" -> labels = [group_label Alpha]) /\
  (forall st2, server st2 = server st -> gitlabURL st2 = gitlabURL st ->
     fst (buildGroups term st2) = fst (buildGroups term st)) /\
  filter (group_matches term) (filter (group_matches term) gs) = filter (group_matches term) gs.
Proof.
  intros gs labels.
  assert (Hl : labels = map group_label (filter (group_matches term) gs)).
  { subst labels. pose proof (buildGroups_spec term st pages Hok) as H. cbn zeta in H.
    destruct (buildGroups term st) as [t st']. destruct H as ((ch & -> & Hl & _) & _). exact Hl. }
  split; [exact Hl|]. split; [|split; [|split]].
  - intros g Hg. rewrite Hl, in_group_labels by exact Hg. apply group_matches_spec.
  - intros -> ->. rewrite Hl. reflexivity.
  - intros st2 Hs Hu. apply buildGroups_det; auto.
  - clear Hl labels. induction gs as [|g gs' IH]; cbn; [reflexivity|].
    destruct (group_matches term g) eqn:E; cbn; [rewrite E, IH|]; auto.
Qed.

Lemma C4_group_filter_witness :
  groups_pages (server (demo_state demo_server SearchInput)) = Ok [[Alpha; beta]; [Alps]] /\
  map text (children (fst (buildGroups "al" (demo_state demo_server SearchInput)))) = [group_label Alpha] /\
  In (group_label Aerzte)
     (map text (children (fst (buildGroups aerzte_term (demo_state flaky_server SearchInput))))).
Proof.
  split; [reflexivity|]. split.
  - destruct (C4_group_filter "al" (demo_state demo_server SearchInput) [[Alpha; beta]; [Alps]] eq_refl)
      as (_ & _ & H & _).
    apply H; reflexivity.
  - destruct (C4_group_filter aerzte_term (demo_state flaky_server SearchInput) [[Alpha; beta; Aerzte]] eq_refl)
      as (_ & H & _).
    apply (H Aerzte); [right; right; left; reflexivity|].
    right. exists "", "". vm_compute. reflexivity.
Defined.

(** *** Navigation *)

(** Unfold one event handling down to the client results it depends on. *)
Ltac step_tac :=
  unfold handle, jobActionDone, showPipelines, fetchAndShowPipelines, fetchAndShowJobs,
    fetchAndDisplayJobLogs, retryJob, rebuildJobListView, buildTree in *;
  unfold_m; cbn -[buildGroups].

(** C2 (as stated, refuted): job 99 of pipeline 7 failed; the retry
    succeeds and the server now lists it as pending, but the job list
    shown after "Retry" still says "failed": nothing is re-fetched. *)
Lemma C2_counterexample :
  let st := demo_state demo_server (PipelineList "42" "main" [pipeline7]) in
  let st' := snd (run [SelectItem 0; SelectItem 0; ButtonChoice "Retry"] st) in
  retry demo_server "42" 99 = Ok server_after_retry /\
  pipeline_jobs (server st') "42" 7 = Ok [job99_pending] /\
  root st' = JobList "42" "main" [job99_failed] /\
  list_items (root st') = [jobInfo job99_failed] /\
  requests st' = [RqListPipelineJobs "42" 7; RqRetryJob "42" 99].
Proof. vm_compute. repeat split. Qed.

(** C2 (amended): "Retry" sends the retry mutation and then redisplays
    the job list from the jobs captured when the list was built, with no
    re-fetch, whether the mutation succeeds or fails. *)
Theorem C2_retry_redisplays_captured_jobs (st : St) (pid pn : string) (jobs : list Job) (job : Job)
    (Hroot : root st = JobActionModal pid pn jobs job) :
  let st' := snd (handle (ButtonChoice "Retry") st) in
  root st' = JobList pid pn jobs /\
  list_items (root st') = map jobInfo jobs /\
  requests st' = app (requests st) [RqRetryJob pid (toInt (Itoa (j_id job)))].
Proof.
  step_tac. rewrite Hroot. cbn.
  destruct (retry (server st) pid (toInt (Itoa (j_id job)))); cbn; repeat split.
Qed.

Lemma C2_retry_redisplays_captured_jobs_witness :
  root (demo_state demo_server (JobActionModal "42" "main" [job99_failed] job99_failed)) =
    JobActionModal "42" "main" [job99_failed] job99_failed /\
  root (snd (handle (ButtonChoice "Retry") (demo_state demo_server (JobActionModal "42" "main" [job99_failed] job99_failed))))
    = JobList "42" "main" [job99_failed].
Proof.
  split; [reflexivity|].
  apply (C2_retry_redisplays_captured_jobs (demo_state demo_server (JobActionModal "42" "main" [job99_failed] job99_failed)) "42" "main" [job99_failed] job99_failed eq_refl).
Defined.

(** C3: when the client call of a navigation transition fails, the root
    and the server are unchanged and one error line is printed. *)
Theorem C3_failed_fetch_keeps_view (st : St) (ev : Event) (Hfail : nav_fetch_fails st ev) :
  let st' := snd (handle ev st) in
  root st' = root st /\ server st' = server st /\
  exists line, stdout st' = app (stdout st) [line] /\ HasPrefix line "Error fetching " = true.
Proof.
  destruct Hfail as [pid bs i b e R N F | pid br ps i p e R N F | pid pn jobs ev e R Hev F].
  - step_tac. rewrite R. cbn. rewrite N. cbn. rewrite F. cbn. repeat split; try congruence. eexists; split; reflexivity.
  - step_tac. rewrite R. cbn. rewrite N. cbn. rewrite F. cbn. repeat split; try congruence. eexists; split; reflexivity.
  - destruct Hev as [-> | ->]; step_tac; rewrite R; cbn; rewrite F; cbn; repeat split; try congruence; eexists; split; reflexivity.
Qed.

Lemma C3_failed_fetch_keeps_view_witness :
  nav_fetch_fails (demo_state down_server (JobList "42" "main" [job99_failed])) KeyEsc /\
  root (snd (handle KeyEsc (demo_state down_server (JobList "42" "main" [job99_failed]))))
    = JobList "42" "main" [job99_failed].
Proof.
  assert (H : nav_fetch_fails (demo_state down_server (JobList "42" "main" [job99_failed])) KeyEsc)
    by (eapply back_fetch_fails; [reflexivity | left; reflexivity | reflexivity]).
  split; [exact H|].
  apply (C3_failed_fetch_keeps_view _ _ H).
Defined.

(** C5 (as stated, refuted): after searching "al" the tree shows only
    "Alpha"; enter project api, branch main, then Esc: the tree rebuilt
    shows "Alpha" and "beta", i.e. the filter was reset to "". *)
Lemma C5_counterexample :
  let st0 := demo_state demo_server StartModal in
  let st_filtered := snd (run [ButtonChoice "Search group by name"; SubmitText "al"] st0) in
  let st_pipelines := snd (run [SelectNode (project_node api); SelectOption 0] st_filtered) in
  let st_back := snd (handle KeyEsc st_pipelines) in
  tree_groups (root st_filtered) = [group_label Alpha] /\
  root st_pipelines = PipelineList "42" "main" [pipeline7] /\
  tree_groups (root st_back) = [group_label Alpha; group_label beta].
Proof. vm_compute. repeat split. Qed.

(** C5 (amended): Esc or the back button on a pipeline list rebuilds the
    group tree with the empty search term, whatever term was submitted
    before. *)
Theorem C5_back_rebuilds_unfiltered_tree (st : St) (pid br : string) (ps : list Pipeline) (ev : Event)
    (Hroot : root st = PipelineList pid br ps) (Hev : ev = KeyEsc \/ ev = BackButton) :
  handle ev st = (let (t, st') := buildTree "" st in SetRoot t st').
Proof.
  destruct Hev as [-> | ->]; unfold handle, bind, gets; cbn -[buildTree]; rewrite Hroot; reflexivity.
Qed.

Lemma C5_back_rebuilds_unfiltered_tree_witness :
  tree_groups (root (snd (handle KeyEsc (demo_state demo_server (PipelineList "42" "main" [pipeline7])))))
  = [group_label Alpha; group_label beta].
Proof.
  rewrite (C5_back_rebuilds_unfiltered_tree (demo_state demo_server (PipelineList "42" "main" [pipeline7]))
             "42" "main" [pipeline7] KeyEsc eq_refl (or_introl eq_refl)).
  vm_compute. reflexivity.
Defined.

(** C6 (as stated, refuted): when the log fetch fails the job action
    modal stays on screen; the user is not back on the job list. *)
Lemma C6_counterexample :
  let st := demo_state down_server (JobActionModal "42" "main" [job99_failed] job99_failed) in
  let st' := snd (handle (ButtonChoice "Logs") st) in
  root st' = JobActionModal "42" "main" [job99_failed] job99_failed /\
  root st' <> JobList "42" "main" [job99_failed] /\
  stdout st' = ["Error fetching logs: network"].
Proof. vm_compute. split; [reflexivity | split; [discriminate | reflexivity]]. Qed.

(** C6 (amended): from the job action modal, "Logs" shows the log view
    (whose back returns to the job list rebuilt from the same jobs) or,
    when the log fetch fails, prints the error and leaves the modal on
    screen; "Retry" always returns to the job list rebuilt from the same
    jobs, and a failed retry prints the error and changes nothing else. *)
Theorem C6_job_actions (st : St) (pid pn : string) (jobs : list Job) (job : Job)
    (Hroot : root st = JobActionModal pid pn jobs job) :
  let jid := toInt (Itoa (j_id job)) in
  let after b := snd (handle (ButtonChoice b) st) in
  (forall logs, trace_file (server st) pid jid = Ok logs ->
     root (after "Logs") = LogView logs (JobList pid pn jobs) /\
     root (snd (handle KeyEsc (after "Logs"))) = JobList pid pn jobs) /\
  (forall e, trace_file (server st) pid jid = Err e ->
     root (after "Logs") = root st /\
     stdout (after "Logs") = app (stdout st) ["Error fetching logs: " ++ e]) /\
  root (after "Retry") = JobList pid pn jobs /\
  (forall e, retry (server st) pid jid = Err e ->
     server (after "Retry") = server st /\
     stdout (after "Retry") = app (stdout st) ["Error retrying job: " ++ e]).
Proof.
  intros jid after. subst after jid. split; [|split; [|split]].
  - intros logs F. step_tac. rewrite Hroot. cbn. rewrite F. cbn. split; reflexivity.
  - intros e F. step_tac. rewrite Hroot. cbn. rewrite F. cbn. split; [congruence | reflexivity].
  - step_tac. rewrite Hroot. cbn. destruct (retry _ _ _); reflexivity.
  - intros e F. step_tac. rewrite Hroot. cbn. rewrite F. cbn. split; reflexivity.
Qed.

Lemma C6_job_actions_witness :
  root (snd (handle (ButtonChoice "Logs") (demo_state demo_server (JobActionModal "42" "main" [job99_failed] job99_failed))))
  = LogView "job log" (JobList "42" "main" [job99_failed]).
Proof.
  destruct (C6_job_actions (demo_state demo_server (JobActionModal "42" "main" [job99_failed] job99_failed))
              "42" "main" [job99_failed] job99_failed eq_refl) as [H _].
  apply (H "job log"). vm_compute. reflexivity.
Defined.

(** Case analysis on every client result and branch of one handler. *)
Ltac split_results :=
  repeat (match goal with
          | |- context [match ?x with Ok _ => _ | Err _ => _ end] => destruct x
          | |- context [match nth_error ?l ?i with _ => _ end] => destruct (nth_error l i)
          | |- context [if String.eqb ?a ?b then _ else _] => destruct (String.eqb a b)
          | |- context [if HasPrefix ?a ?b then _ else _] => destruct (HasPrefix a b)
          | |- context [match reference ?n with _ => _ end] => destruct (reference n)
          | |- context [let (_, _) := buildGroups ?t ?s in _] => destruct (buildGroups t s)
          end; cbn -[buildGroups]).

(** C8: the job-level views (job list, job action modal, log view)
    entered from the pipeline list of project [pid] and branch [br] all
    carry [(pid, br)], every step between them keeps it, and back from a
    job list fetches and shows the pipelines of exactly that project and
    branch. *)
Theorem C8_back_to_same_pipelines (st : St) (ev : Event) :
  let st' := snd (handle ev st) in
  (forall pid br ps, root st = PipelineList pid br ps ->
     origin (root st') <> None -> origin (root st') = Some (pid, br)) /\
  (forall o, origin (root st) = Some o ->
     origin (root st') <> None -> origin (root st') = Some o) /\
  (forall pid pn jobs, root st = JobList pid pn jobs -> ev = KeyEsc \/ ev = BackButton ->
     handle ev st = fetchAndShowPipelines pid pn st).
Proof.
  intros st'. subst st'. split; [|split].
  - intros pid br ps R. step_tac. rewrite R. destruct ev; cbn -[buildGroups]; split_results;
      try rewrite R; cbn; congruence.
  - intros o Ho. step_tac. destruct (root st) eqn:R; cbn in Ho; try discriminate;
      destruct ev; cbn -[buildGroups]; split_results; try rewrite R; cbn; try congruence.
  - intros pid pn jobs R [-> | ->]; unfold handle, bind, gets; cbn -[fetchAndShowPipelines];
      rewrite R; reflexivity.
Qed.

Lemma C8_back_to_same_pipelines_witness :
  origin (root (snd (handle (SelectItem 0) (demo_state demo_server (PipelineList "42" "main" [pipeline7])))))
    = Some ("42", "main") /\
  handle KeyEsc (demo_state demo_server (JobList "42" "main" [job99_failed]))
    = fetchAndShowPipelines "42" "main" (demo_state demo_server (JobList "42" "main" [job99_failed])).
Proof.
  split.
  - destruct (C8_back_to_same_pipelines (demo_state demo_server (PipelineList "42" "main" [pipeline7])) (SelectItem 0))
      as [H _].
    apply (H "42" "main" [pipeline7] eq_refl). vm_compute. discriminate.
  - destruct (C8_back_to_same_pipelines (demo_state demo_server (JobList "42" "main" [job99_failed])) KeyEsc)
      as (_ & _ & H).
    apply (H "42" "main" [job99_failed] eq_refl (or_introl eq_refl)).
Defined.

(** *** Tree node references (C9) *)

Lemma nodes_eq (n : TreeNode) : nodes n = n :: flat_map nodes (children n).
Proof.
  destruct n as [t c s r ch]. cbn. f_equal.
Qed.

Lemma project_node_nodes (p : Project) : nodes (project_node p) = [project_node p].
Proof. reflexivity. Qed.

Lemma group_node_nodes (g : Group) (ps : list Project) (n : TreeNode) :
  In n (nodes (mkNode (group_label g) ColorWhiteSmoke true RefNil (map project_node ps))) ->
  n = mkNode (group_label g) ColorWhiteSmoke true RefNil (map project_node ps) \/
  exists p, n = project_node p.
Proof.
  rewrite nodes_eq. cbn [children]. intros [<- | Hn]; [left; reflexivity | right].
  apply in_flat_map in Hn. destruct Hn as [x [Hx Hn]].
  apply in_map_iff in Hx. destruct Hx as [p [<- _]].
  rewrite project_node_nodes in Hn. destruct Hn as [<- | []]. eauto.
Qed.

(** C9: selecting a "Project: " node whose reference is not a string only
    prints "Invalid project reference" (root, server and requests are
    unchanged); and every "Project: " node [buildGroups] creates holds a
    string reference. *)
Theorem C9_project_reference :
  (forall st t node, root st = TreeView t ->
     HasPrefix (text node) "Project: " = true ->
     (forall s, reference node <> RefString s) ->
     handle (SelectNode node) st = println "Invalid project reference" st) /\
  (forall term st n, In n (nodes (fst (buildGroups term st))) ->
     HasPrefix (text n) "Project: " = true -> exists s, reference n = RefString s).
Proof.
  split.
  - intros st t node R Hp Hr. unfold handle, bind, gets. cbn -[showPipelines println].
    rewrite R, Hp. unfold showPipelines.
    destruct (reference node) eqn:E; [reflexivity | exfalso; exact (Hr s eq_refl) | reflexivity].
  - intros term st n Hn Hp.
    destruct (groups_pages (server st)) as [pages | e] eqn:Hg.
    + pose proof (buildGroups_spec term st pages Hg) as H. cbn zeta in H.
      destruct (buildGroups term st) as [t st']. cbn [fst] in Hn.
      destruct H as ((ch & -> & _ & Hch) & _).
      rewrite nodes_eq in Hn. destruct Hn as [<- | Hn]; [discriminate Hp|].
      cbn [children instance_node] in Hn. apply in_flat_map in Hn. destruct Hn as [gn [Hgn Hn]].
      destruct (Hch gn Hgn) as [g [ps ->]].
      destruct (group_node_nodes g ps n Hn) as [-> | [p ->]]; [discriminate Hp | eexists; reflexivity].
    + pose proof (buildGroups_err term st e Hg) as H.
      destruct (buildGroups term st) as [t st']. cbn [fst] in Hn. destruct H as [-> _].
      destruct Hn as [<- | []]. discriminate Hp.
Qed.

Lemma C9_project_reference_witness :
  handle (SelectNode {| text := "Project: api"; color := ColorDarkGrey; selectable := true;
                        reference := RefInt 42; children := [] |})
         (demo_state demo_server (TreeView (NewTreeNode "GitLab Pipelines" ColorYellow)))
  = println "Invalid project reference" (demo_state demo_server (TreeView (NewTreeNode "GitLab Pipelines" ColorYellow))).
Proof.
  destruct C9_project_reference as [H _].
  apply (H _ (NewTreeNode "GitLab Pipelines" ColorYellow)); [reflexivity | reflexivity | discriminate].
Defined.

(** *** Startup and configuration (C7) *)

Lemma keeps_bind {A B} (m : M A) (k : A -> M B) :
  keeps_config m -> (forall a, keeps_config (k a)) -> keeps_config (bind m k).
Proof.
  intros Hm Hk st. unfold bind. specialize (Hm st). destruct (m st) as [a st'].
  cbn in Hm. destruct (Hk a st'). destruct Hm. split; congruence.
Qed.

Lemma keeps_ret {A} (a : A) : keeps_config (ret a).
Proof. split; reflexivity. Qed.
Lemma keeps_gets {A} (f : St -> A) : keeps_config (gets f).
Proof. split; reflexivity. Qed.
Lemma keeps_println l : keeps_config (println l).
Proof. split; reflexivity. Qed.
Lemma keeps_SetRoot r : keeps_config (SetRoot r).
Proof. split; reflexivity. Qed.
Lemma keeps_send rq : keeps_config (send rq).
Proof. split; reflexivity. Qed.
Lemma keeps_set_server srv : keeps_config (set_server srv).
Proof. split; reflexivity. Qed.

Lemma keeps_buildGroups term : keeps_config (buildGroups term).
Proof.
  intros st. destruct (groups_pages (server st)) as [pages | e] eqn:Hg.
  - pose proof (buildGroups_spec term st pages Hg) as H. cbn zeta in H.
    destruct (buildGroups term st). cbn. tauto.
  - pose proof (buildGroups_err term st e Hg) as H.
    destruct (buildGroups term st). cbn. tauto.
Qed.

Create HintDb keeps.
#[local] Hint Resolve keeps_ret keeps_gets keeps_println keeps_SetRoot keeps_send
  keeps_set_server keeps_buildGroups : keeps.

Ltac keeps_tac :=
  repeat first
    [ progress auto with keeps
    | apply keeps_bind; [ | intros ? ]
    | progress cbv zeta
    | match goal with |- keeps_config (match ?x with _ => _ end) => destruct x end
    | match goal with |- keeps_config (if ?x then _ else _) => destruct x end ].

Lemma keeps_handle ev : keeps_config (handle ev).
Proof.
  unfold handle, buildTree, showPipelines, fetchAndShowPipelines, fetchAndShowJobs,
    jobActionDone, fetchAndDisplayJobLogs, retryJob,
    ListBranches, ListProjectPipelines, ListPipelineJobs, GetTraceFile, RetryJob.
  keeps_tac.
Qed.

Lemma keeps_run evs : keeps_config (run evs).
Proof. induction evs as [|ev evs IH]; cbn; [auto with keeps | apply keeps_bind; auto using keeps_handle]. Qed.

(** C7: without GITLAB_PERSONAL_TOKEN the process exits with status 1
    before [main] shows anything; without GITLAB_URL the base URL is
    "https://gitlab.com"; and the URL and client set by [init] are those
    of the final state after any sequence of events. *)
Theorem C7_startup_config (env : string -> option string) (newClient : string -> string -> result Client)
    (srv : Server) (evs : list Event) :
  (env "GITLAB_PERSONAL_TOKEN" = None -> exists out, process env newClient srv evs = Exited 1 out) /\
  (forall c url out, init env newClient = Started c url out ->
     env "GITLAB_URL" = None -> url = "https://gitlab.com") /\
  (forall c url out, init env newClient = Started c url out ->
     exists st, process env newClient srv evs = Ran st /\ gitlabURL st = url /\ gitlabClient st = c).
Proof.
  split; [|split].
  - intros Ht. unfold process, init, Getenv. rewrite Ht. cbn. eauto.
  - intros c url out Hi Hu. unfold init, Getenv in Hi. rewrite Hu in Hi. cbn in Hi.
    destruct (String.eqb _ ""); [discriminate|].
    destruct (newClient _ _); inversion Hi; reflexivity.
  - intros c url out Hi. unfold process. rewrite Hi. eexists. split; [reflexivity|].
    apply keeps_run.
Qed.

Lemma C7_startup_config_witness :
  (exists out, process (fun _ => None) accept_client demo_server [] = Exited 1 out) /\
  init token_only_env accept_client =
    Started {| c_token := "glpat-x"; c_baseURL := "https://gitlab.com/api/v4" |} "https://gitlab.com"
      ["Connecting to Instance: https://gitlab.com"] /\
  gitlabURL (match process token_only_env accept_client demo_server [ButtonChoice "List all groups"] with
             | Ran st => st | Exited _ _ => demo_state demo_server StartModal end) = "https://gitlab.com".
Proof.
  split; [|split].
  - apply (C7_startup_config (fun _ => None) accept_client demo_server []). reflexivity.
  - reflexivity.
  - destruct (C7_startup_config token_only_env accept_client demo_server [ButtonChoice "List all groups"])
      as (_ & Hd & Hr).
    destruct (Hr _ _ _ eq_refl) as [st [-> [-> _]]].
    apply (Hd _ _ _ eq_refl). reflexivity.
Defined.

(** *** [toInt] (C10) *)

Lemma digit_value_char (d : nat) : d < 10 -> digit_value (digit_char d) = Some d.
Proof. intros H. do 10 (destruct d as [|d]; [reflexivity|]). lia. Qed.

Lemma digit_char_not_sign (d : nat) : d < 10 ->
  Ascii.eqb (digit_char d) "-" = false /\ Ascii.eqb (digit_char d) "+" = false.
Proof. intros H. do 10 (destruct d as [|d]; [split; reflexivity|]). lia. Qed.

Lemma digit_value_inv (c : ascii) (d : nat) : digit_value c = Some d -> d < 10 /\ c = digit_char d.
Proof.
  unfold digit_value, digit_char. intros H.
  destruct (Nat.leb 48 (nat_of_ascii c)) eqn:H1; [|discriminate].
  destruct (Nat.leb (nat_of_ascii c) 57) eqn:H2; [|discriminate].
  cbn in H. injection H as <-. apply Nat.leb_le in H1, H2. split; [lia|].
  replace (48 + (nat_of_ascii c - 48)) with (nat_of_ascii c) by lia.
  symmetry. apply ascii_nat_embedding.
Qed.

Lemma parse_digits_string (ds : list nat) : forall acc,
  Forall (fun d => d < 10) ds ->
  parse_digits (digits_string ds) acc = Some (fold_left (fun acc d => acc * 10 + Z.of_nat d)%Z ds acc).
Proof.
  induction ds as [|d ds IH]; intros acc Hd; [reflexivity|].
  inversion Hd as [|? ? Hd1 Hds]; subst. unfold digits_string; cbn [fold_right parse_digits]. rewrite digit_value_char by exact Hd1. apply IH, Hds.
Qed.

Lemma parse_digits_inv (s : string) : forall acc v,
  parse_digits s acc = Some v ->
  exists ds, Forall (fun d => d < 10) ds /\ s = digits_string ds /\
             v = fold_left (fun acc d => acc * 10 + Z.of_nat d)%Z ds acc.
Proof.
  induction s as [|c s IH]; intros acc v H; cbn in H.
  - injection H as <-. exists []. auto.
  - destruct (digit_value c) as [d|] eqn:Hc; [|discriminate].
    apply digit_value_inv in Hc. destruct Hc as [Hd ->].
    destruct (IH _ _ H) as [ds (Hds & -> & ->)].
    exists (d :: ds). auto.
Qed.

Lemma in_int_range (z : Z) :
  (min_int <=? z)%Z && (z <=? max_int)%Z = true <-> (min_int <= z <= max_int)%Z.
Proof. rewrite andb_true_iff, !Z.leb_le. tauto. Qed.

(** [Atoi] accepts exactly the decimal literals whose value is a 64-bit
    [int]. *)
Lemma Atoi_spec (s : string) (z : Z) :
  Atoi s = Some z <-> int_literal s z /\ (min_int <= z <= max_int)%Z.
Proof.
  split.
  - unfold Atoi. intros H.
    destruct s as [|c s']; [discriminate|].
    destruct (Ascii.eqb c "-") eqn:Em; [|destruct (Ascii.eqb c "+") eqn:Ep].
    + apply Ascii.eqb_eq in Em as ->.
      destruct s' as [|c' s'']; [discriminate|].
      destruct (parse_digits (String c' s'') 0) as [u|] eqn:Hp; [|discriminate].
      destruct (_ && _)%bool eqn:Hr; [|discriminate]. injection H as <-.
      apply in_int_range in Hr. apply parse_digits_inv in Hp.
      destruct Hp as [ds (Hds & Hs & ->)]. split; [|exact Hr].
      rewrite Hs. apply lit_minus; [|exact Hds]. intros ->. discriminate Hs.
    + apply Ascii.eqb_eq in Ep as ->.
      destruct s' as [|c' s'']; [discriminate|].
      destruct (parse_digits (String c' s'') 0) as [u|] eqn:Hp; [|discriminate].
      destruct (_ && _)%bool eqn:Hr; [|discriminate]. injection H as <-.
      apply in_int_range in Hr. apply parse_digits_inv in Hp.
      destruct Hp as [ds (Hds & Hs & ->)]. split; [|exact Hr].
      rewrite Hs. apply lit_plus; [|exact Hds]. intros ->. discriminate Hs.
    + destruct (parse_digits (String c s') 0) as [u|] eqn:Hp; [|discriminate].
      destruct (_ && _)%bool eqn:Hr; [|discriminate]. injection H as <-.
      apply in_int_range in Hr. apply parse_digits_inv in Hp.
      destruct Hp as [ds (Hds & Hs & ->)]. split; [|exact Hr].
      rewrite Hs. apply lit_unsigned; [|exact Hds]. intros ->. discriminate Hs.
  - intros [Hl Hr]. apply in_int_range in Hr. unfold Atoi.
    destruct Hl as [ds Hne Hds | ds Hne Hds | ds Hne Hds];
      (destruct ds as [|d ds']; [congruence|]);
      pose proof (parse_digits_string (d :: ds') 0 Hds) as Hp;
      inversion Hds as [|? ? Hd _]; subst.
    + change (digits_string (d :: ds')) with (String (digit_char d) (digits_string ds')) in Hp |- *.
      destruct (digit_char_not_sign d Hd) as [E1 E2]. cbn beta iota. rewrite E1, E2.
      cbn beta iota. rewrite Hp. cbn beta iota. unfold digits_val in Hr. rewrite Hr. reflexivity.
    + change (digits_string (d :: ds')) with (String (digit_char d) (digits_string ds')) in Hp |- *.
      cbn [Ascii.eqb Bool.eqb andb]. cbn beta iota. rewrite Hp. cbn beta iota.
      unfold digits_val in Hr. rewrite Hr. reflexivity.
    + change (digits_string (d :: ds')) with (String (digit_char d) (digits_string ds')) in Hp |- *.
      cbn [Ascii.eqb Bool.eqb andb]. cbn beta iota. rewrite Hp. cbn beta iota.
      unfold digits_val in Hr. rewrite Hr. reflexivity.
Qed.

(** C10: [toInt s] is the value of [s] when [s] is a decimal literal
    (optional sign, digits) whose value fits a 64-bit [int], which is
    what "parses as an integer" means for [strconv.Atoi], and 0
    otherwise; so a pipeline or job identifier that does not parse is
    sent to the API as id 0. *)
Theorem C10_toInt (s : string) :
  (forall z, int_literal s z -> (min_int <= z <= max_int)%Z -> toInt s = z) /\
  ((forall z, int_literal s z -> ~ (min_int <= z <= max_int)%Z) ->
     toInt s = 0%Z /\
     (forall st pid pn, requests (snd (fetchAndShowJobs pid s pn st)) =
                        app (requests st) [RqListPipelineJobs pid 0]) /\
     (forall st pid ret, requests (snd (fetchAndDisplayJobLogs pid s ret st)) =
                         app (requests st) [RqGetTraceFile pid 0]) /\
     (forall st pid, requests (snd (retryJob pid s st)) =
                     app (requests st) [RqRetryJob pid 0])).
Proof.
  split.
  - intros z Hl Hr. unfold toInt. rewrite (proj2 (Atoi_spec s z) (conj Hl Hr)). reflexivity.
  - intros Hno.
    assert (H0 : toInt s = 0%Z).
    { unfold toInt. destruct (Atoi s) as [z|] eqn:Ha; [|reflexivity].
      apply Atoi_spec in Ha. destruct Ha as [Hl Hr]. exfalso. exact (Hno z Hl Hr). }
    split; [exact H0|]. split; [|split].
    + intros st pid pn. unfold fetchAndShowJobs. unfold_m. cbn. rewrite H0.
      destruct (pipeline_jobs _ _ _); reflexivity.
    + intros st pid r. unfold fetchAndDisplayJobLogs. unfold_m. cbn. rewrite H0.
      destruct (trace_file _ _ _); reflexivity.
    + intros st pid. unfold retryJob. unfold_m. cbn. rewrite H0.
      destruct (retry _ _ _); reflexivity.
Qed.

Lemma C10_toInt_witness :
  toInt "-42" = (-42)%Z /\
  requests (snd (fetchAndShowJobs "42" "7a" "main" (demo_state demo_server (PipelineList "42" "main" [pipeline7]))))
    = [RqListPipelineJobs "42" 0].
Proof.
  split.
  - destruct (C10_toInt "-42") as [H _]. apply H.
    + exact (lit_minus [4; 2] ltac:(discriminate) ltac:(repeat constructor)).
    + vm_compute. split; discriminate.
  - destruct (C10_toInt "7a") as [_ H].
    apply H. intros z Hl Hr. pose proof (proj2 (Atoi_spec "7a" z) (conj Hl Hr)) as Ha.
    vm_compute in Ha. discriminate.
Defined.

(** ** Evaluation checks of the string and number helpers *)

Example Itoa_examples : Itoa 1234 = "1234" /\ Itoa (-7) = "-7" /\ Itoa 0 = "0".
Proof. vm_compute. auto. Qed.

Example toInt_examples :
  toInt "42" = 42%Z /\ toInt "-42" = (-42)%Z /\ toInt "+0" = 0%Z /\ toInt "4x" = 0%Z /\
  toInt "" = 0%Z /\ toInt "-" = 0%Z /\ toInt "9223372036854775807" = max_int /\
  toInt "9223372036854775808" = 0%Z.
Proof. vm_compute. repeat split. Qed.

Example ToLower_Contains_examples :
  ToLower "AlPha" = "alpha" /\ Contains "alpha" "al" = true /\ Contains "beta" "al" = false.
Proof. vm_compute. auto. Qed.

(** [strings.ToLower] beyond ASCII: "ÄRZTE" gives "ärzte", the Kelvin
    sign U+212A gives "k", U+0130 gives "i", capital sharp s U+1E9E gives
    U+00DF, and an invalid byte becomes U+FFFD (EF BF BD). *)
Example ToLower_unicode_examples :
  ToLower (g_name Aerzte) = aerzte_term /\
  ToLower (String (byte 226) (String (byte 132) (String (byte 170) EmptyString))) = "k" /\
  ToLower (String (byte 196) (String (byte 176) EmptyString)) = "i" /\
  ToLower (String (byte 225) (String (byte 186) (String (byte 158) EmptyString))) =
    String (byte 195) (String (byte 159) EmptyString) /\
  ToLower (String "A" (String (byte 255) EmptyString)) =
    String "a" (String (byte 239) (String (byte 191) (String (byte 189) EmptyString))).
Proof. vm_compute. repeat split. Qed.

(** ** Further properties of the program *)

(** *** Decimal formatting and parsing *)

Lemma size_nat_bound (p : positive) : (Zpos p < 10 ^ Z.of_nat (Pos.size_nat p))%Z.
Proof.
  induction p as [p IH | p IH |]; cbn [Pos.size_nat];
    rewrite ?Nat2Z.inj_succ, ?Z.pow_succ_r by lia;
    [rewrite Pos2Z.inj_xI; lia | rewrite Pos2Z.inj_xO; lia | cbn; lia].
Qed.

Lemma digits_fuel_bound (n : N) : (Z.of_N n < 10 ^ Z.of_nat (S (N.size_nat n)))%Z.
Proof.
  rewrite Nat2Z.inj_succ, Z.pow_succ_r by lia. destruct n as [|p]; cbn [N.size_nat].
  - cbn. lia.
  - pose proof (size_nat_bound p). cbn [Z.of_N]. lia.
Qed.

Lemma digits_of_pos_aux_spec (fuel : nat) : forall (n : N) (acc : list nat),
  fuel <> O -> (Z.of_N n < 10 ^ Z.of_nat fuel)%Z ->
  exists ds, ds <> [] /\ Forall (fun d => d < 10) ds /\
    digits_of_pos_aux fuel n (digits_string acc) = digits_string (app ds acc) /\
    digits_val ds = Z.of_N n.
Proof.
  induction fuel as [|fuel IH]; intros n acc Hf Hn; [congruence|].
  cbn [digits_of_pos_aux].
  assert (Hd : N.to_nat (n mod 10) < 10).
  { pose proof (N.mod_lt n 10 ltac:(discriminate)). lia. }
  assert (Hv : Z.of_nat (N.to_nat (n mod 10)) = (Z.of_N n mod 10)%Z).
  { rewrite N_nat_Z, N2Z.inj_mod. reflexivity. }
  pose proof (Z.div_mod (Z.of_N n) 10 ltac:(lia)) as Hdm.
  pose proof (Z.mod_pos_bound (Z.of_N n) 10 ltac:(lia)) as Hb.
  destruct (N.ltb_spec n 10) as [Hlt | Hge].
  - exists [N.to_nat (n mod 10)]. split; [discriminate|]. split; [auto|]. split; [reflexivity|].
    unfold digits_val. cbn [fold_left]. rewrite Hv, Z.mod_small by lia. lia.
  - rewrite Nat2Z.inj_succ, Z.pow_succ_r in Hn by lia.
    assert (Hq : (Z.of_N (n / 10) < 10 ^ Z.of_nat fuel)%Z).
    { rewrite N2Z.inj_div. cbn [Z.of_N Pos.of_succ_nat]. change (Z.pos 10) with 10%Z. lia. }
    assert (Hf' : fuel <> O).
    { intros ->. cbn in Hn. lia. }
    destruct (IH (n / 10)%N (N.to_nat (n mod 10) :: acc) Hf' Hq) as (ds & Hne & Hds & Hs & Hval).
    exists (app ds [N.to_nat (n mod 10)]). split; [destruct ds; [congruence | discriminate]|].
    split; [apply Forall_app; auto|]. split.
    + rewrite <- app_assoc. exact Hs.
    + unfold digits_val in *. rewrite fold_left_app. cbn [fold_left]. rewrite Hval, Hv, N2Z.inj_div.
      cbn [Z.of_N]. change (Z.pos 10) with 10%Z. lia.
Qed.

(** [Itoa z] is a decimal literal denoting [z]. *)
Lemma Itoa_literal (z : Z) : int_literal (Itoa z) z.
Proof.
  unfold Itoa, digits_of_N. change EmptyString with (digits_string []).
  destruct (Z.ltb_spec z 0) as [Hneg | Hpos].
  - destruct (digits_of_pos_aux_spec (S (N.size_nat (Z.to_N (- z)))) (Z.to_N (- z)) [] ltac:(discriminate) (digits_fuel_bound _))
      as (ds & Hne & Hds & -> & Hv).
    rewrite app_nil_r. rewrite Z2N.id in Hv by lia.
    replace z with (- digits_val ds)%Z by lia. apply lit_minus; auto.
  - destruct (digits_of_pos_aux_spec (S (N.size_nat (Z.to_N z))) (Z.to_N z) [] ltac:(discriminate) (digits_fuel_bound _))
      as (ds & Hne & Hds & -> & Hv).
    rewrite app_nil_r. rewrite Z2N.id in Hv by lia.
    rewrite <- Hv. apply lit_unsigned; auto.
Qed.

(** The identifiers the program formats with [%d] or [strconv.Itoa] and
    parses back with [toInt] round-trip: for every 64-bit [int] [z],
    [strconv.Atoi] accepts [Itoa z] and returns [z], so [toInt (Itoa z) = z]. *)
Theorem toInt_Itoa (z : Z) (Hr : (min_int <= z <= max_int)%Z) :
  Atoi (Itoa z) = Some z /\ toInt (Itoa z) = z.
Proof.
  assert (H : Atoi (Itoa z) = Some z) by (apply Atoi_spec; split; [apply Itoa_literal | exact Hr]).
  split; [exact H|]. unfold toInt. rewrite H. reflexivity.
Qed.

Lemma toInt_Itoa_witness :
  (min_int <= -9223372036854775808 <= max_int)%Z /\ toInt (Itoa (-9223372036854775808)) = (-9223372036854775808)%Z.
Proof.
  assert (Hr : (min_int <= -9223372036854775808 <= max_int)%Z) by (vm_compute; split; discriminate).
  split; [exact Hr | exact (proj2 (toInt_Itoa _ Hr))].
Defined.

(** *** Navigation requests *)

(** [step_tac] that keeps [toInt] and [Itoa] folded. *)
Ltac step_ids_tac :=
  unfold handle, jobActionDone, showPipelines, fetchAndShowPipelines, fetchAndShowJobs,
    fetchAndDisplayJobLogs, retryJob, rebuildJobListView, buildTree in *;
  unfold_m; cbn -[buildGroups toInt Itoa].

Lemma HasPrefix_empty (s : string) : HasPrefix s "" = true.
Proof. destruct s; reflexivity. Qed.

Lemma toInt_Itoa_id (z : Z) : (min_int <= z <= max_int)%Z -> toInt (Itoa z) = z.
Proof.
  intros Hr. unfold toInt. rewrite (proj2 (Atoi_spec (Itoa z) z) (conj (Itoa_literal z) Hr)).
  reflexivity.
Qed.

(** Choosing pipeline [i] of a pipeline list requests the jobs of that
    pipeline's own id (the [%d] formatting and [toInt] parsing in between
    lose nothing) and, when they arrive, shows them in a job list that
    keeps the project and branch. *)
Theorem select_pipeline_fetches_its_jobs (st : St) (pid br : string) (ps : list Pipeline)
    (i : nat) (p : Pipeline)
    (Hroot : root st = PipelineList pid br ps) (Hi : nth_error ps i = Some p)
    (Hr : (min_int <= pl_id p <= max_int)%Z) :
  let st' := snd (handle (SelectItem i) st) in
  requests st' = app (requests st) [RqListPipelineJobs pid (pl_id p)] /\
  (forall jobs, pipeline_jobs (server st) pid (pl_id p) = Ok jobs ->
     root st' = JobList pid br jobs /\ list_items (root st') = map jobInfo jobs).
Proof.
  step_ids_tac. rewrite Hroot. cbn -[toInt Itoa]. rewrite Hi. cbn -[toInt Itoa].
  rewrite (toInt_Itoa_id _ Hr). split.
  - destruct (pipeline_jobs _ _ _); reflexivity.
  - intros jobs ->. split; reflexivity.
Qed.

Lemma select_pipeline_fetches_its_jobs_witness :
  requests (snd (handle (SelectItem 0) (demo_state demo_server (PipelineList "42" "main" [pipeline7]))))
    = [RqListPipelineJobs "42" 7].
Proof.
  exact (proj1 (select_pipeline_fetches_its_jobs (demo_state demo_server (PipelineList "42" "main" [pipeline7]))
                  "42" "main" [pipeline7] 0 pipeline7 eq_refl eq_refl
                  ltac:(vm_compute; split; discriminate))).
Defined.

(** "Logs" and "Retry" of the job action modal address the selected job
    by its own id; a successful retry installs the server's new state
    and prints "Job retried successfully". *)
Theorem job_actions_use_job_id (st : St) (pid pn : string) (jobs : list Job) (job : Job)
    (Hroot : root st = JobActionModal pid pn jobs job)
    (Hr : (min_int <= j_id job <= max_int)%Z) :
  let after b := snd (handle (ButtonChoice b) st) in
  requests (after "Logs") = app (requests st) [RqGetTraceFile pid (j_id job)] /\
  requests (after "Retry") = app (requests st) [RqRetryJob pid (j_id job)] /\
  (forall srv', retry (server st) pid (j_id job) = Ok srv' ->
     server (after "Retry") = srv' /\
     stdout (after "Retry") = app (stdout st) ["Job retried successfully"]).
Proof.
  intros after. subst after. step_ids_tac. rewrite Hroot. cbn -[toInt Itoa].
  rewrite (toInt_Itoa_id _ Hr). split; [|split].
  - destruct (trace_file _ _ _); reflexivity.
  - destruct (retry _ _ _); reflexivity.
  - intros srv' ->. split; reflexivity.
Qed.

Lemma job_actions_use_job_id_witness :
  server (snd (handle (ButtonChoice "Retry")
                 (demo_state demo_server (JobActionModal "42" "main" [job99_failed] job99_failed))))
  = server_after_retry.
Proof.
  destruct (job_actions_use_job_id (demo_state demo_server (JobActionModal "42" "main" [job99_failed] job99_failed))
              "42" "main" [job99_failed] job99_failed eq_refl ltac:(vm_compute; split; discriminate))
    as (_ & _ & H).
  apply (H server_after_retry eq_refl).
Defined.

(** In the group tree, selecting a node whose text does not start with
    "Project: " does nothing at all; selecting a project node built by
    [buildGroups] lists the branches of that project's id and shows them
    in the branch drop-down, or prints the error and keeps the tree. *)
Theorem tree_selection (st : St) (t : TreeNode) (Hroot : root st = TreeView t) :
  (forall node, HasPrefix (text node) "Project: " = false -> handle (SelectNode node) st = (tt, st)) /\
  (forall p, let st' := snd (handle (SelectNode (project_node p)) st) in
     requests st' = app (requests st) [RqListBranches (Itoa (pr_id p))] /\
     (forall bs, branches (server st) (Itoa (pr_id p)) = Ok bs ->
        root st' = BranchDropDown (Itoa (pr_id p)) bs) /\
     (forall e, branches (server st) (Itoa (pr_id p)) = Err e ->
        root st' = root st /\
        stdout st' = app (stdout st) ["Error fetching branches for project " ++ Itoa (pr_id p) ++ " : " ++ e])).
Proof.
  split.
  - intros node Hp. unfold handle, bind, gets. cbn -[HasPrefix]. rewrite Hroot, Hp. reflexivity.
  - intros p st'. subst st'.
    unfold handle, bind, gets. rewrite Hroot. cbn -[showPipelines Itoa].
    rewrite HasPrefix_empty. unfold showPipelines. unfold_m. cbn -[Itoa]. split; [|split].
    + destruct (branches _ _); reflexivity.
    + intros bs ->. reflexivity.
    + intros e ->. cbn -[Itoa]. split; [congruence | reflexivity].
Qed.

Lemma tree_selection_witness :
  root (snd (handle (SelectNode (project_node api))
               (demo_state demo_server (TreeView (NewTreeNode "GitLab Pipelines" ColorYellow)))))
  = BranchDropDown "42" [{| b_name := "main" |}].
Proof.
  destruct (tree_selection (demo_state demo_server (TreeView (NewTreeNode "GitLab Pipelines" ColorYellow)))
              (NewTreeNode "GitLab Pipelines" ColorYellow) eq_refl) as [_ H].
  destruct (H api) as (_ & Hok & _). apply (Hok [{| b_name := "main" |}]). reflexivity.
Defined.

(** Choosing branch [i] of the drop-down lists the pipelines of that
    branch (by name) and shows them in a pipeline list for the same
    project and branch. *)
Theorem select_branch_fetches_its_pipelines (st : St) (pid : string) (bs : list Branch)
    (i : nat) (b : Branch)
    (Hroot : root st = BranchDropDown pid bs) (Hi : nth_error bs i = Some b) :
  let st' := snd (handle (SelectOption i) st) in
  requests st' = app (requests st) [RqListProjectPipelines pid (b_name b)] /\
  (forall ps, project_pipelines (server st) pid (b_name b) = Ok ps ->
     root st' = PipelineList pid (b_name b) ps /\ list_items (root st') = map pipelineInfo ps).
Proof.
  step_ids_tac. rewrite Hroot. cbn -[toInt Itoa]. rewrite Hi. cbn. split.
  - destruct (project_pipelines _ _ _); reflexivity.
  - intros ps ->. split; reflexivity.
Qed.

Lemma select_branch_fetches_its_pipelines_witness :
  root (snd (handle (SelectOption 0) (demo_state demo_server (BranchDropDown "42" [{| b_name := "main" |}]))))
  = PipelineList "42" "main" [pipeline7].
Proof.
  destruct (select_branch_fetches_its_pipelines (demo_state demo_server (BranchDropDown "42" [{| b_name := "main" |}]))
              "42" [{| b_name := "main" |}] 0 {| b_name := "main" |} eq_refl eq_refl) as [_ H].
  apply (H [pipeline7] eq_refl).
Defined.

(** *** Building the group tree *)

Lemma run_cons (ev : Event) (evs : list Event) (st : St) :
  snd (run (ev :: evs) st) = snd (run evs (snd (handle ev st))).
Proof. cbn [run]. unfold bind. destruct (handle ev st). reflexivity. Qed.

Lemma filter_match_empty (gs : list Group) : filter (group_matches "") gs = gs.
Proof. induction gs as [|g gs IH]; cbn; [reflexivity | rewrite IH; reflexivity]. Qed.

(** The tree [buildTree] returns shows the matching groups of the
    first page. *)
Lemma buildTree_groups (term : string) (st : St) (pages : list (list Group)) :
  groups_pages (server st) = Ok pages ->
  tree_groups (fst (buildTree term st)) = map group_label (filter (group_matches term) (nth 0 pages [])).
Proof.
  intros Hp. pose proof (buildGroups_spec term st pages Hp) as H. cbn zeta in H.
  unfold buildTree, bind, ret. destruct (buildGroups term st) as [g st'].
  destruct H as ((ch & -> & Hl & _) & _). cbn. rewrite app_nil_r. exact Hl.
Qed.

(** From the start modal, "Search group by name" opens the search field
    without any request, and submitting a term [t] shows the groups of
    the first page that match [t]; "List all groups" shows every group of
    the first page. *)
Theorem start_modal_group_views (st : St) (pages : list (list Group)) (t : string)
    (Hroot : root st = StartModal) (Hok : groups_pages (server st) = Ok pages) :
  let st1 := snd (handle (ButtonChoice "Search group by name") st) in
  root st1 = SearchInput /\ requests st1 = requests st /\
  tree_groups (root (snd (handle (SubmitText t) st1))) =
    map group_label (filter (group_matches t) (nth 0 pages [])) /\
  tree_groups (root (snd (handle (ButtonChoice "List all groups") st))) =
    map group_label (nth 0 pages []).
Proof.
  intros st1.
  assert (E1 : handle (ButtonChoice "Search group by name") st = SetRoot SearchInput st)
    by (unfold handle, bind, gets; rewrite Hroot; reflexivity).
  assert (E2 : handle (ButtonChoice "List all groups") st = (let (r, st') := buildTree "" st in SetRoot r st'))
    by (unfold handle, bind, gets; rewrite Hroot; reflexivity).
  assert (E3 : handle (SubmitText t) st1 = (let (r, st') := buildTree t st1 in SetRoot r st'))
    by (subst st1; rewrite E1; reflexivity).
  subst st1. rewrite E3, E2. rewrite E1. clear E1 E2 E3.
  pose proof (buildTree_groups t (snd (SetRoot SearchInput st)) pages Hok) as Ht.
  pose proof (buildTree_groups "" st pages Hok) as Ha. rewrite filter_match_empty in Ha.
  destruct (buildTree t (snd (SetRoot SearchInput st))) as [r st2]. destruct (buildTree "" st) as [r' st3].
  cbn in Ht, Ha |- *. repeat split; assumption.
Qed.

Lemma start_modal_group_views_witness :
  tree_groups (root (snd (handle (ButtonChoice "List all groups") (demo_state demo_server StartModal))))
  = [group_label Alpha; group_label beta].
Proof.
  destruct (start_modal_group_views (demo_state demo_server StartModal) [[Alpha; beta]; [Alps]] "al"
              eq_refl eq_refl) as (_ & _ & _ & H).
  exact H.
Defined.

(** When the group listing fails, submitting a search shows a tree
    with the instance node and no group under it, after a single
    group-listing request, and prints the error. *)
Theorem group_listing_failure (st : St) (e t : string)
    (Hroot : root st = SearchInput) (He : groups_pages (server st) = Err e) :
  let st' := snd (handle (SubmitText t) st) in
  root st' = TreeView (mkNode "GitLab Pipelines" ColorYellow false RefNil [instance_node (gitlabURL st) []]) /\
  tree_groups (root st') = [] /\
  requests st' = app (requests st) [RqListGroups 0] /\
  stdout st' = app (stdout st) ["Error fetching groups: " ++ e].
Proof.
  unfold handle, buildTree, buildGroups. unfold_m. cbn -[instance_node]. rewrite Hroot. cbn -[instance_node].
  rewrite He. cbn -[instance_node]. repeat split.
Qed.

Lemma group_listing_failure_witness :
  tree_groups (root (snd (handle (SubmitText "al") (demo_state down_server SearchInput)))) = [].
Proof.
  exact (proj1 (proj2 (group_listing_failure (demo_state down_server SearchInput) "network" "al" eq_refl eq_refl))).
Defined.

Lemma group_nodes_children (term : string) (gs : list Group) : forall st,
  let (ns, st') := group_nodes term gs st in
  map children ns = map (group_children (server st)) (filter (group_matches term) gs) /\
  stdout st' = app (stdout st) (flat_map (group_errors (server st)) (filter (group_matches term) gs)) /\
  server st' = server st.
Proof.
  induction gs as [|g gs IH]; intros st; cbn [group_nodes filter].
  - cbn. rewrite app_nil_r. auto.
  - destruct (group_matches term g) eqn:Hm; [|apply IH].
    unfold_m. cbn -[group_nodes].
    unfold group_children at 1, group_errors at 1.
    destruct (group_projects (server st) (g_id g)) as [ps | e]; cbn -[group_nodes];
    match goal with |- context [group_nodes term gs ?s] =>
      specialize (IH s); destruct (group_nodes term gs s) as [ns st'] end;
    cbn in IH; destruct IH as (H1 & H2 & H3); cbn; rewrite H1, H2, H3;
    rewrite ?app_nil_r, <- ?app_assoc; auto.
Qed.

(** A group whose projects cannot be listed still appears in the tree,
    with no project under it, and one error line is printed for it; the
    other groups show their projects. *)
Theorem project_listing_failure_keeps_group (term : string) (st : St) (pages : list (list Group))
    (Hok : groups_pages (server st) = Ok pages) :
  let gs := filter (group_matches term) (nth 0 pages []) in
  let (t, st') := buildGroups term st in
  map text (children t) = map group_label gs /\
  map children (children t) = map (group_children (server st)) gs /\
  stdout st' = app (stdout st) (flat_map (group_errors (server st)) gs).
Proof.
  intros gs. pose proof (buildGroups_spec term st pages Hok) as H. cbn zeta in H.
  unfold buildGroups in *. unfold_m. cbn -[group_nodes] in H |- *. rewrite Hok in H |- *.
  cbn -[group_nodes] in H |- *.
  match goal with |- context [group_nodes term ?l ?s] =>
    pose proof (group_nodes_children term l s) as G end.
  destruct (group_nodes term _ _) as [ns st']. cbn in G, H |- *.
  destruct H as ((ch & Hch & Hl & _) & _). injection Hch as <-.
  destruct G as (G1 & G2 & _). split; [exact Hl | split; assumption].
Qed.

Lemma project_listing_failure_keeps_group_witness :
  let (t, st') := buildGroups "" (demo_state flaky_server StartModal) in
  map text (children t) = map group_label [Alpha; beta; Aerzte] /\
  map children (children t) = [[project_node api]; []; []] /\
  stdout st' = ["Error fetching projects for group beta : 403 Forbidden";
                "Error fetching projects for group " ++ g_name Aerzte ++ " : 403 Forbidden"].
Proof.
  pose proof (project_listing_failure_keeps_group "" (demo_state flaky_server StartModal)
                [[Alpha; beta; Aerzte]] eq_refl) as H.
  cbn zeta in H. destruct (buildGroups "" (demo_state flaky_server StartModal)) as [t st'].
  destruct H as (H1 & H2 & H3). rewrite H1, H2, H3. vm_compute. repeat split.
Defined.

(** *** The job action modal *)

(** Opening the action modal of job [i] and leaving it with "Cancel"
    makes no request, prints nothing and returns to the same job list;
    any other button label (Esc reports "") leaves the modal untouched. *)
Theorem job_modal_open_and_cancel (st : St) (pid pn : string) (jobs : list Job) (i : nat) (job : Job)
    (Hroot : root st = JobList pid pn jobs) (Hi : nth_error jobs i = Some job) :
  let st1 := snd (handle (SelectItem i) st) in
  root st1 = JobActionModal pid pn jobs job /\ requests st1 = requests st /\
  (forall label, label <> "Logs" -> label <> "Retry" -> label <> "Cancel" ->
     handle (ButtonChoice label) st1 = (tt, st1)) /\
  let st2 := snd (run [SelectItem i; ButtonChoice "Cancel"] st) in
  root st2 = JobList pid pn jobs /\ requests st2 = requests st /\
  stdout st2 = stdout st /\ server st2 = server st.
Proof.
  assert (E : handle (SelectItem i) st = SetRoot (JobActionModal pid pn jobs job) st)
    by (unfold handle, bind, gets; rewrite Hroot; cbn; rewrite Hi; reflexivity).
  cbn zeta. rewrite run_cons, E. split; [reflexivity|]. split; [reflexivity|]. split.
  - intros label H1 H2 H3. unfold handle, bind, gets. cbn -[jobActionDone]. unfold jobActionDone.
    apply String.eqb_neq in H1, H2, H3. rewrite H1, H2, H3. reflexivity.
  - unfold run, handle, bind, gets. cbn. repeat split.
Qed.

Lemma job_modal_open_and_cancel_witness :
  root (snd (run [SelectItem 0; ButtonChoice "Cancel"] (demo_state demo_server (JobList "42" "main" [job99_failed]))))
  = JobList "42" "main" [job99_failed].
Proof.
  destruct (job_modal_open_and_cancel (demo_state demo_server (JobList "42" "main" [job99_failed]))
              "42" "main" [job99_failed] 0 job99_failed eq_refl eq_refl) as (_ & _ & _ & H & _).
  exact H.
Defined.

(** *** Only "Retry" mutates *)

Lemma read_only_bind {A B} (m : M A) (k : A -> M B) :
  read_only m -> (forall a, read_only (k a)) -> read_only (bind m k).
Proof.
  intros Hm Hk st. unfold bind. specialize (Hm st). destruct (m st) as [a st1].
  cbn in Hm. destruct Hm as [Hs1 [f1 [Hr1 Hn1]]].
  destruct (Hk a st1) as [Hs2 [f2 [Hr2 Hn2]]]. split; [congruence|].
  exists (app f1 f2). split; [rewrite Hr2, Hr1, app_assoc; reflexivity|].
  intros pid j Hin. apply in_app_or in Hin. destruct Hin; [eapply Hn1 | eapply Hn2]; eauto.
Qed.

Lemma read_only_ret {A} (a : A) : read_only (ret a).
Proof. split; [reflexivity|]. exists []. rewrite app_nil_r. split; [reflexivity | intros ? ? []]. Qed.

Lemma read_only_gets {A} (f : St -> A) : read_only (gets f).
Proof. split; [reflexivity|]. exists []. rewrite app_nil_r. split; [reflexivity | intros ? ? []]. Qed.

Lemma read_only_println l : read_only (println l).
Proof. split; [reflexivity|]. exists []. rewrite app_nil_r. split; [reflexivity | intros ? ? []]. Qed.

Lemma read_only_SetRoot r : read_only (SetRoot r).
Proof. split; [reflexivity|]. exists []. rewrite app_nil_r. split; [reflexivity | intros ? ? []]. Qed.

Lemma read_only_send rq : (forall pid j, rq <> RqRetryJob pid j) -> read_only (send rq).
Proof.
  intros Hrq st. split; [reflexivity|]. exists [rq]. split; [reflexivity|].
  intros pid j [H | []]. exact (Hrq pid j H).
Qed.

Lemma read_only_get_call {A} (rq : Request) (f : Server -> A) :
  (forall pid j, rq <> RqRetryJob pid j) -> read_only (send rq;; srv <- gets server;; ret (f srv)).
Proof.
  intros Hrq. apply read_only_bind; [apply read_only_send, Hrq | intros _].
  apply read_only_bind; [apply read_only_gets | intros; apply read_only_ret].
Qed.

Lemma read_only_buildGroups term : read_only (buildGroups term).
Proof.
  intros st. destruct (groups_pages (server st)) as [pages | e] eqn:Hg.
  - pose proof (buildGroups_spec term st pages Hg) as H. cbn zeta in H.
    destruct (buildGroups term st) as [t st']. cbn.
    destruct H as (_ & Hr & Hs & _). split; [exact Hs|].
    eexists. split; [exact Hr|]. intros pid j [H | H]; [discriminate|].
    apply in_map_iff in H. destruct H as [g [H _]]. discriminate.
  - pose proof (buildGroups_err term st e Hg) as H.
    destruct (buildGroups term st) as [t st']. cbn.
    destruct H as (_ & Hr & Hs & _). split; [exact Hs|].
    eexists. split; [exact Hr|]. intros pid j [H | []]. discriminate.
Qed.

Lemma bind_gets_apply {A B} (f : St -> A) (k : A -> M B) (st : St) :
  bind (gets f) k st = k (f st) st.
Proof. reflexivity. Qed.

Create HintDb ro.
#[local] Hint Resolve read_only_ret read_only_gets read_only_println read_only_SetRoot
  read_only_buildGroups : ro.
#[local] Hint Extern 1 (read_only (send _;; _)) =>
  apply read_only_get_call; intros ? ? ?; discriminate : ro.
#[local] Hint Extern 1 (read_only (send _)) =>
  apply read_only_send; intros ? ? ?; discriminate : ro.

Ltac ro_tac :=
  repeat first
    [ progress auto with ro
    | apply read_only_bind; [ | intros ? ]
    | progress cbv zeta
    | match goal with |- read_only (match ?x with _ => _ end) => destruct x end
    | match goal with |- read_only (if ?x then _ else _) => destruct x end ].

(** Every event other than "Retry" on a job action modal leaves the
    server's state alone and sends no retry request: the program's only
    mutation is [RetryJob], and only that button issues it. *)
Theorem only_retry_mutates (st : St) (ev : Event)
    (Hnot : forall pid pn jobs job, root st = JobActionModal pid pn jobs job -> ev <> ButtonChoice "Retry") :
  server (snd (handle ev st)) = server st /\
  exists fresh, requests (snd (handle ev st)) = app (requests st) fresh /\
    forall pid j, ~ In (RqRetryJob pid j) fresh.
Proof.
  unfold handle. rewrite bind_gets_apply. cbv beta.
  destruct (root st) as [| |t|pid bs|pid br ps|pid pn jobs|pid pn jobs job|logs back] eqn:R;
  destruct ev as [label|text|node|i|i| |]; cbv beta iota;
  match goal with |- context [snd (?m st)] => cut (read_only m); [intros Hro; apply (Hro st)|] end;
  unfold buildTree, showPipelines, fetchAndShowPipelines, fetchAndShowJobs, fetchAndDisplayJobLogs,
    ListBranches, ListProjectPipelines, ListPipelineJobs, GetTraceFile;
  try (unfold jobActionDone; destruct (String.eqb label "Logs"); [|
         destruct (String.eqb label "Retry") eqn:Er;
         [apply String.eqb_eq in Er; subst label; exfalso; exact (Hnot pid pn jobs job eq_refl eq_refl)|]]);
  ro_tac.
Qed.

Lemma only_retry_mutates_witness :
  server (snd (handle (ButtonChoice "Logs") (demo_state demo_server (JobActionModal "42" "main" [job99_failed] job99_failed))))
  = demo_server.
Proof.
  apply (proj1 (only_retry_mutates (demo_state demo_server (JobActionModal "42" "main" [job99_failed] job99_failed))
                  (ButtonChoice "Logs") ltac:(intros pid pn jobs job _; discriminate))).
Defined.

(** *** Startup *)

(** With both variables set, [init] uses GITLAB_URL as given, builds the
    client for [GITLAB_URL ++ "/api/v4"] and prints the instance; the
    program then starts on the start modal without any API request. A
    client that cannot be built stops the process with status 1 whatever
    the events. *)
Theorem init_with_url (env : string -> option string) (newClient : string -> string -> result Client)
    (tok u : string)
    (Ht : env "GITLAB_PERSONAL_TOKEN" = Some tok) (Htok : tok <> "")
    (Hu : env "GITLAB_URL" = Some u) (Hue : u <> "") :
  (forall c, newClient tok (u ++ "/api/v4") = Ok c ->
     init env newClient = Started c u ["Connecting to Instance: " ++ u] /\
     forall srv, process env newClient srv [] =
       Ran {| gitlabClient := c; gitlabURL := u; root := StartModal; server := srv;
              requests := []; stdout := ["Connecting to Instance: " ++ u] |}) /\
  (forall e, newClient tok (u ++ "/api/v4") = Err e ->
     forall srv evs, process env newClient srv evs = Exited 1 ["Error creating GitLab client: " ++ e]).
Proof.
  assert (Hi : forall r, newClient tok (u ++ "/api/v4") = r ->
            init env newClient = match r with
                                 | Err e => Exit 1 ["Error creating GitLab client: " ++ e]
                                 | Ok c => Started c u ["Connecting to Instance: " ++ u]
                                 end).
  { intros r Hr. unfold init, Getenv. rewrite Ht, Hu.
    apply String.eqb_neq in Htok, Hue. cbv zeta. rewrite Htok, Hue, Hr. reflexivity. }
  split.
  - intros c Hc. pose proof (Hi _ Hc) as E. split; [exact E|].
    intros srv. unfold process. rewrite E. reflexivity.
  - intros e He srv evs. unfold process. rewrite (Hi _ He). reflexivity.
Qed.

Lemma init_with_url_witness :
  init (fun k => if String.eqb k "GITLAB_URL" then Some "https://git.example.org" else token_only_env k)
       accept_client =
  Started {| c_token := "glpat-x"; c_baseURL := "https://git.example.org/api/v4" |} "https://git.example.org"
    ["Connecting to Instance: https://git.example.org"].
Proof.
  destruct (init_with_url
    (fun k => if String.eqb k "GITLAB_URL" then Some "https://git.example.org" else token_only_env k)
    accept_client "glpat-x" "https://git.example.org" eq_refl ltac:(discriminate) eq_refl ltac:(discriminate))
    as [H _].
  exact (proj1 (H _ eq_refl)).
Defined.

(** The second program's [init] behaves as the first one's and then
    lists the groups once: a failed listing exits with status 1, and a
    successful one prints "Group: <name>" for each group of the first
    page after the instance line. *)
Theorem init_program2 (env : string -> option string) (newClient : string -> string -> result Client)
    (srv : Server) :
  (forall code out, init env newClient = Exit code out -> Program2.init env newClient srv = Exit code out) /\
  (forall c url out, init env newClient = Started c url out ->
     (forall e, groups_pages srv = Err e ->
        Program2.init env newClient srv = Exit 1 ["Error fetching groups: " ++ e]) /\
     (forall pages, groups_pages srv = Ok pages ->
        Program2.init env newClient srv =
          Started c url (app out (map (fun g => "Group: " ++ g_name g) (nth 0 pages []))))).
Proof.
  unfold init, Program2.init. cbv zeta.
  destruct (String.eqb (Getenv env "GITLAB_PERSONAL_TOKEN") "").
  - split; [auto | intros c url out H; discriminate H].
  - destruct (newClient _ _) as [c | e].
    + split; [intros code out H; discriminate H|].
      intros c' url out H. injection H as <- <- <-. split.
      * intros e He. rewrite He. reflexivity.
      * intros pages Hp. rewrite Hp. reflexivity.
    + split; [auto | intros c url out H; discriminate H].
Qed.

Lemma init_program2_witness :
  Program2.init token_only_env accept_client down_server = Exit 1 ["Error fetching groups: network"].
Proof.
  destruct (init_program2 token_only_env accept_client down_server) as [_ H].
  apply (proj1 (H _ _ _ eq_refl) "network" eq_refl).
Defined.

(** *** The second program's branch modal *)

(** The branch modal of the second program offers one button per
    branch, in order, then "Cancel" at index [length bs]; the button at
    index [i] of a branch fetches and shows that branch's pipelines,
    while "Cancel", Esc (-1) or any index outside the branches changes
    nothing. *)
Theorem branch_modal_buttons (pid : string) (bs : list Branch) (st : St) :
  length (Program2.branchButtons bs) = S (length bs) /\
  nth (length bs) (Program2.branchButtons bs) "" = "Cancel" /\
  (forall k, (k < 0 \/ Z.of_nat (length bs) <= k)%Z -> Program2.branchModalDone pid bs k st = (tt, st)) /\
  (forall i b, nth_error bs i = Some b ->
     nth i (Program2.branchButtons bs) "" = b_name b /\
     Program2.branchModalDone pid bs (Z.of_nat i) st = fetchAndShowPipelines pid (b_name b) st).
Proof.
  unfold Program2.branchButtons, Program2.branchModalDone. split; [|split; [|split]].
  - rewrite length_app, length_map. cbn. lia.
  - rewrite app_nth2; rewrite length_map; [rewrite Nat.sub_diag; reflexivity | lia].
  - intros k Hk. destruct (Z.leb_spec 0 k), (Z.ltb_spec k (Z.of_nat (length bs))); try lia; reflexivity.
  - intros i b Hi.
    assert (Hlt : i < length bs) by (apply nth_error_Some; congruence).
    split.
    + apply nth_error_nth. rewrite nth_error_app1 by (rewrite length_map; exact Hlt).
      rewrite nth_error_map, Hi. reflexivity.
    + destruct (Z.leb_spec 0 (Z.of_nat i)), (Z.ltb_spec (Z.of_nat i) (Z.of_nat (length bs))); try lia.
      cbn. rewrite Nat2Z.id, Hi. reflexivity.
Qed.

Lemma branch_modal_buttons_witness :
  Program2.branchModalDone "42" [{| b_name := "main" |}] 0 (demo_state demo_server StartModal)
  = fetchAndShowPipelines "42" "main" (demo_state demo_server StartModal).
Proof.
  destruct (branch_modal_buttons "42" [{| b_name := "main" |}] (demo_state demo_server StartModal)) as (_ & _ & _ & H).
  apply (proj2 (H 0 {| b_name := "main" |} eq_refl)).
Defined.

(** *** The group filter *)

Lemma append_empty_r (s : string) : s ++ "" = s.
Proof. induction s as [|c s IH]; cbn; [reflexivity | rewrite IH; reflexivity]. Qed.

(** Searching for a group's own name, in any letter case (any term with
    the same [strings.ToLower] form), shows that group in the tree. *)
Theorem search_own_name_shows_group (term : string) (st : St) (pages : list (list Group)) (g : Group)
    (Hok : groups_pages (server st) = Ok pages) (Hin : In g (nth 0 pages []))
    (Hname : ToLower term = ToLower (g_name g)) :
  In (group_label g) (map text (children (fst (buildGroups term st)))).
Proof.
  pose proof (buildGroups_spec term st pages Hok) as H. cbn zeta in H.
  destruct (buildGroups term st) as [t st']. destruct H as ((ch & -> & Hl & _) & _).
  cbn [fst instance_node children]. rewrite Hl, in_group_labels by exact Hin.
  apply group_matches_spec. right. exists "", "". cbn. rewrite append_empty_r. symmetry. exact Hname.
Qed.

Lemma search_own_name_shows_group_witness :
  In (group_label Aerzte)
     (map text (children (fst (buildGroups aerzte_term (demo_state flaky_server SearchInput))))).
Proof.
  apply (search_own_name_shows_group aerzte_term (demo_state flaky_server SearchInput) [[Alpha; beta; Aerzte]]
           Aerzte eq_refl); [right; right; left; reflexivity | vm_compute; reflexivity].
Defined.
